(** * Notification dispatcher and history store of [services/push-service.js]

    A shallow embedding of the push-notification service: the event
    formatters ([sendOrderConfirmationNotification] and its siblings), the
    two delivery primitives ([sendLocalNotification], [scheduleNotification])
    and the history store kept in AsyncStorage
    ([saveNotificationToHistory], [getNotificationHistory],
    [clearNotificationHistory]).

    JavaScript numbers are IEEE binary64 values (primitive floats), objects
    are finite maps from property names to values, and the asynchronous
    functions run in a state-and-exception monad over a [world] that holds
    the device storage, the host notification service, the clock and the
    console. The service awaits every call it makes, so each function is a
    sequence of steps on that world; two calls in flight together are
    modelled for [saveNotificationToHistory] only, by [overlapped].

    The file also covers [getServerNotificationPayload] and the handlers
    of the notification screen that call the history store
    ([fetchNotification], [handleClearAll], [onRefresh]).

    Arguments have the types the JSDoc comments of the source give them:
    titles, bodies and identifiers are strings, prices and quantities are
    numbers, [data] is an object whose properties hold arbitrary values.
    An optional argument is an [option], [None] when the caller leaves it
    out. *)

From Stdlib Require Import ZArith String Ascii Floats Lia.
From stdpp Require Import gmap strings list fin_maps.

Set Warnings "-register-all,-inexact-float".

(** ** Decimal digits *)

Definition digit_char (d : Z) : ascii := ascii_of_nat (48 + Z.to_nat d).

(** The decimal digits of a non-negative integer, most significant first,
    pushed in front of [acc]. *)
Fixpoint digits_fuel (fuel : nat) (n : Z) (acc : string) : string :=
  match fuel with
  | O => acc
  | S fuel' =>
      let acc' := String (digit_char (n mod 10)) acc in
      if (n <? 10)%Z then acc' else digits_fuel fuel' (n / 10) acc'
  end.

Definition decimal (n : Z) : string :=
  digits_fuel (S (Z.to_nat (Z.log2 n))) n "".

(** The [w] least significant decimal digits of [n], zero padded. *)
Fixpoint fixed_digits (w : nat) (n : Z) (acc : string) : string :=
  match w with
  | O => acc
  | S w' => fixed_digits w' (n / 10) (String (digit_char (n mod 10)) acc)
  end.

Definition pad (w : nat) (n : Z) : string := fixed_digits w n "".

Fixpoint zeros (k : nat) : string :=
  match k with O => "" | S k' => String "0" (zeros k') end.

Definition is_digit (c : ascii) : bool :=
  (48 <=? nat_of_ascii c)%nat && (nat_of_ascii c <=? 57)%nat.

Definition digit_value (c : ascii) : option Z :=
  if is_digit c then Some (Z.of_nat (nat_of_ascii c) - 48)%Z else None.

(** The number written by a string of decimal digits. *)
Fixpoint read_digits (s : string) (acc : Z) : option Z :=
  match s with
  | EmptyString => Some acc
  | String c s' =>
      match digit_value c with
      | Some d => read_digits s' (acc * 10 + d)
      | None => None
      end
  end.

(** [s] without its first [n] characters. *)
Definition after (n : nat) (s : string) : string :=
  substring n (String.length s - n) s.

(** ** Numbers

    [Prim2SF] exposes a finite binary64 value as sign, mantissa [m] and
    exponent [e], the number being [m * 2^e]. The conversions to text of
    the language ([Number::toString], [Number.prototype.toFixed]) are
    defined on that exact value with integer arithmetic. *)

Module Number.

(** [m * 2^e] as a fraction [num / den] of integers. *)
Definition num (m : positive) (e : Z) : Z := Zpos m * 2 ^ Z.max e 0.
Definition den (e : Z) : Z := 2 ^ Z.max (- e) 0.

(** ToIntegerOrInfinity on a finite number: truncation towards zero. *)
Definition truncate (x : float) : option Z :=
  match Prim2SF x with
  | S754_zero _ => Some 0%Z
  | S754_finite s m e =>
      let q := (num m e / den e)%Z in Some (if s then (- q)%Z else q)
  | _ => None
  end.

(** Comparison of [a * 10^p] with [b * 2^q], for non-negative [a], [b]. *)
Definition cmp_dec_bin (a p b q : Z) : comparison :=
  (a * 10 ^ Z.max p 0 * 2 ^ Z.max (- q) 0
     ?= b * 2 ^ Z.max q 0 * 10 ^ Z.max (- p) 0)%Z.

(** Does the decimal [s * 10^p] read back as the double [m * 2^e]?  It
    does when it lies between the midpoints to the neighbouring doubles;
    a midpoint itself rounds to the even mantissa. *)
Definition reads_back (m : positive) (e : Z) (s p : Z) : bool :=
  let lo := if ((Zpos m =? 2 ^ 52) && (-1074 <? e))%Z
            then (4 * Zpos m - 1)%Z else (4 * Zpos m - 2)%Z in
  let hi := (4 * Zpos m + 2)%Z in
  match cmp_dec_bin s p lo (e - 2), cmp_dec_bin s p hi (e - 2) with
  | Gt, Lt => true
  | Eq, Lt | Gt, Eq => Z.even (Zpos m)
  | _, _ => false
  end.

(** The [k]-digit decimal with exponent [n] nearest to [m * 2^e], when
    one reads back as that double. *)
Definition candidate (m : positive) (e : Z) (k n : Z) : option Z :=
  let p := (n - k)%Z in
  let a := (num m e * 10 ^ Z.max (- p) 0)%Z in
  let b := (den e * 10 ^ Z.max p 0)%Z in
  let s_lo := (a / b)%Z in
  let s_hi := (s_lo + 1)%Z in
  let ok s := ((10 ^ (k - 1) <=? s) && (s <? 10 ^ k))%Z && reads_back m e s p in
  let lo_first := match (2 * (a mod b) ?= b)%Z with
                  | Lt => true | Gt => false | Eq => Z.even s_lo end in
  let '(s1, s2) := if lo_first then (s_lo, s_hi) else (s_hi, s_lo) in
  if ok s1 then Some s1 else if ok s2 then Some s2 else None.

(** The [n] with [10^(n-1) <= a/b < 10^n]. *)
Fixpoint exponent_below (fuel : nat) (a b : Z) (n : Z) : Z :=
  match fuel with
  | O => n
  | S fuel' =>
      if (b <=? a * 10 ^ (1 - n))%Z then n else exponent_below fuel' a b (n - 1)
  end.

Definition decimal_exponent (m : positive) (e : Z) : Z :=
  let a := num m e in
  let b := den e in
  if (b <=? a)%Z then Z.of_nat (String.length (decimal (a / b)))
  else exponent_below 400 a b 0.

(** The shortest decimal [s * 10^(n-k)], [s] of [k] digits, that reads
    back as [m * 2^e]: the triple [(n, k, s)] of Number::toString. *)
Fixpoint shortest_from (fuel : nat) (m : positive) (e : Z) (n0 k : Z)
  : Z * Z * Z :=
  match fuel with
  | O => (n0, k, 0%Z)
  | S fuel' =>
      match candidate m e k n0 with
      | Some s => (n0, k, s)
      | None =>
          match candidate m e k (n0 + 1) with
          | Some s => ((n0 + 1)%Z, k, s)
          | None => shortest_from fuel' m e n0 (k + 1)
          end
      end
  end.

Definition shortest (m : positive) (e : Z) : Z * Z * Z :=
  shortest_from 17 m e (decimal_exponent m e) 1.

Definition exponent_part (n : Z) : string :=
  String "e" ((if (0 <=? n - 1)%Z then "+" else "-") +:+ decimal (Z.abs (n - 1))).

(** The text of the positive number with digits [s] ([k] of them) and
    decimal exponent [n]. *)
Definition layout (n k s : Z) : string :=
  let ds := pad (Z.to_nat k) s in
  if ((k <=? n) && (n <=? 21))%Z then ds +:+ zeros (Z.to_nat (n - k))
  else if ((0 <? n) && (n <=? 21))%Z then
    substring 0 (Z.to_nat n) ds +:+ "." +:+ substring (Z.to_nat n) (Z.to_nat (k - n)) ds
  else if ((-6 <? n) && (n <=? 0))%Z then
    "0." +:+ zeros (Z.to_nat (- n)) +:+ ds
  else if (k =? 1)%Z then ds +:+ exponent_part n
  else substring 0 1 ds +:+ "." +:+ substring 1 (Z.to_nat (k - 1)) ds +:+ exponent_part n.

(** Number::toString, the conversion a template literal applies. *)
Definition toString (x : float) : string :=
  match Prim2SF x with
  | S754_nan => "NaN"
  | S754_zero _ => "0"
  | S754_infinity s => (if s then "-" else "") +:+ "Infinity"
  | S754_finite s m e =>
      let '(n, k, d) := shortest m e in
      (if s then "-" else "") +:+ layout n k d
  end.

(** The integer nearest to [m * 2^e * 10^f], the larger one on a tie. *)
Definition scaled_round (m : positive) (e : Z) (f : nat) : Z :=
  ((2 * num m e * 10 ^ Z.of_nat f + den e) / (2 * den e))%Z.

(** Number.prototype.toFixed with [f] fraction digits. *)
Definition toFixed (x : float) (f : nat) : string :=
  match Prim2SF x with
  | S754_finite s m e =>
      if (10 ^ 21 * den e <=? num m e)%Z then toString x
      else
        let n := scaled_round m e f in
        let whole := decimal (n / 10 ^ Z.of_nat f) in
        (if s then "-" else "") +:+
        match f with
        | O => whole
        | S _ => whole +:+ "." +:+ pad f n
        end
  | S754_zero _ =>
      match f with O => "0" | S _ => "0." +:+ zeros f end
  | _ => toString x
  end.

(** ToBoolean on a number: zero (of either sign) and NaN are falsy. *)
Definition truthy (x : float) : bool :=
  negb (PrimFloat.is_nan x || PrimFloat.is_zero x).

(** The number nearest to the integer [z]. *)
Definition of_Z (z : Z) : float :=
  SF2Prim (binary_normalize prec emax z 0 false).

End Number.

(** ** Dates

    A time value is an integral number of milliseconds since the epoch,
    between [- max_time] and [max_time]. *)

Module JsDate.

Definition ms_per_day : Z := 86400000.
Definition max_time : Z := 8640000000000000.

(** TimeClip: the time value a [Date] built from the number [x] holds;
    [None] is the invalid date. *)
Definition time_clip (x : float) : option Z :=
  match Number.truncate x with
  | Some t => if (Z.abs t <=? max_time)%Z then Some t else None
  | None => None
  end.

(** Year, month (1 to 12) and day of the month of day number [z]
    (days since 1970-01-01) in the proleptic Gregorian calendar. *)
Definition civil_of_days (z : Z) : Z * Z * Z :=
  let z := (z + 719468)%Z in
  let era := (z / 146097)%Z in
  let doe := (z - era * 146097)%Z in
  let yoe := ((doe - doe / 1460 + doe / 36524 - doe / 146096) / 365)%Z in
  let doy := (doe - (365 * yoe + yoe / 4 - yoe / 100))%Z in
  let mp := ((5 * doy + 2) / 153)%Z in
  let d := (doy - (153 * mp + 2) / 5 + 1)%Z in
  let m := (if (mp <? 10)%Z then mp + 3 else mp - 9)%Z in
  let y := (yoe + era * 400 + (if (m <=? 2)%Z then 1 else 0))%Z in
  (y, m, d).

Definition year_text (y : Z) : string :=
  if ((0 <=? y) && (y <=? 9999))%Z then pad 4 y
  else (if (y <? 0)%Z then "-" else "+") +:+ pad 6 (Z.abs y).

(** Date.prototype.toISOString of a valid date. *)
Definition iso_string (t : Z) : string :=
  let '(y, m, d) := civil_of_days (t / ms_per_day) in
  let ms := (t mod ms_per_day)%Z in
  year_text y +:+ "-" +:+ pad 2 m +:+ "-" +:+ pad 2 d +:+ "T" +:+
  pad 2 (ms / 3600000) +:+ ":" +:+ pad 2 (ms / 60000 mod 60) +:+ ":" +:+
  pad 2 (ms / 1000 mod 60) +:+ "." +:+ pad 3 (ms mod 1000) +:+ "Z".

End JsDate.

(** ** Values

    Objects are finite maps from property names to values; a property
    that was never set reads as [VUndefined]. *)

Inductive value : Type :=
| VUndefined
| VNull
| VBool (b : bool)
| VNum (x : float)
| VStr (s : string)
| VArr (items : list value)
| VObj (props : gmap string value).

Abbreviation object := (gmap string value).

(** [o.k] *)
Definition get (o : object) (k : string) : value := default VUndefined (o !! k).

Definition ToBoolean (v : value) : bool :=
  match v with
  | VUndefined | VNull => false
  | VBool b => b
  | VNum x => Number.truthy x
  | VStr s => negb (String.eqb s "")
  | VArr _ | VObj _ => true
  end.

(** [a || b] *)
Definition or_else (a b : value) : value := if ToBoolean a then a else b.

(** ** JSON

    [toJSON v] is the value that [JSON.parse] rebuilds from the text
    [JSON.stringify] writes for [v]: a property holding [undefined] is
    left out, [undefined] inside an array and the non-finite numbers become
    [null], and negative zero loses its sign. [None] stands for a value
    that has no JSON text. *)

Definition json_number (x : float) : value :=
  if PrimFloat.is_finite x
  then VNum (if PrimFloat.is_zero x then 0%float else x)
  else VNull.

Fixpoint toJSON (v : value) : option value :=
  match v with
  | VUndefined => None
  | VNull => Some VNull
  | VBool b => Some (VBool b)
  | VNum x => Some (json_number x)
  | VStr s => Some (VStr s)
  | VArr items => Some (VArr (map (fun x => default VNull (toJSON x)) items))
  | VObj props => Some (VObj (omap toJSON props))
  end.

(** [json_elem x] is what an array element [x] reads back as. *)
Definition json_elem (x : value) : value := default VNull (toJSON x).

(** A string kept in AsyncStorage, seen through [JSON.parse]: the empty
    string, a non-empty string that is not JSON, or the JSON text of a
    value. *)
Inductive text : Type :=
| EmptyText
| Malformed
| JsonText (v : value).

Definition nonempty (t : text) : bool :=
  match t with EmptyText => false | _ => true end.

(** ** The host: storage, notification service, clock, console *)

Inductive error : Type :=
| TypeError
| RangeError
| SyntaxError
| HostError (reason : string).

Inductive AndroidNotificationPriority := MIN | LOW | DEFAULT | HIGH | MAX.

Record content := {
  content_title : string;
  content_body : string;
  content_data : object;
  sound : bool;
  priority : AndroidNotificationPriority;
  vibrate : list Z;
  badge : Z;
}.

(** [trigger = None] is the source's [trigger: null]; [Some s] is
    [trigger: { seconds: s }]. *)
Record request := {
  request_content : content;
  trigger : option float;
}.

Inductive log_entry : Type :=
| Log (message : string) (detail : string)
| Error (message : string) (e : error).

(** The world the service runs in. The three oracles give the behaviour of
    the host at its upcoming calls, index 0 being the next call:
    [storage_faults] tells whether an AsyncStorage call rejects,
    [deliveries] whether [scheduleNotificationAsync] rejects or which
    identifier it assigns, [clock] what the clock reads. [calls] lists
    the delivery requests made so far with their outcome, newest first. *)
Record world := {
  storage : gmap string text;
  storage_faults : nat -> option error;
  deliveries : nat -> error + string;
  clock : nat -> Z;
  calls : list (request * (error + string));
  console : list log_entry;
}.

Definition later {A : Type} (f : nat -> A) : nat -> A := fun n => f (S n).

Inductive outcome (A : Type) : Type :=
| Ok (a : A)
| Throw (e : error).
Arguments Ok {A} a.
Arguments Throw {A} e.

(** An awaited asynchronous computation: it changes the world and either
    resolves to a value or rejects. *)
Definition M (A : Type) : Type := world -> outcome A * world.

Definition ret {A : Type} (a : A) : M A := fun w => (Ok a, w).

Definition throw {A : Type} (e : error) : M A := fun w => (Throw e, w).

Definition bind {A B : Type} (c : M A) (k : A -> M B) : M B :=
  fun w =>
    match c w with
    | (Ok a, w') => k a w'
    | (Throw e, w') => (Throw e, w')
    end.

(** [try { body } catch (error) { handler }] *)
Definition try_catch {A : Type} (body : M A) (handler : error -> M A) : M A :=
  fun w =>
    match body w with
    | (Ok a, w') => (Ok a, w')
    | (Throw e, w') => handler e w'
    end.

Declare Scope js_scope.
Delimit Scope js_scope with js.
Notation "x <- c ;; k" := (bind c (fun x => k))
  (at level 100, c at next level, k at level 200, right associativity) : js_scope.
Notation "c ;; k" := (bind c (fun _ => k))
  (at level 100, k at level 200, right associativity) : js_scope.
Local Open Scope js_scope.

Module AsyncStorage.

Definition answered (w : world) (s : gmap string text) : world :=
  {| storage := s;
     storage_faults := later (storage_faults w);
     deliveries := deliveries w;
     clock := clock w;
     calls := calls w;
     console := console w |}.

(** A rejected call leaves the stored data as it was. *)
Definition call {A : Type} (result : gmap string text -> A * gmap string text) : M A :=
  fun w =>
    match storage_faults w 0 with
    | Some e => (Throw e, answered w (storage w))
    | None => let '(a, s) := result (storage w) in (Ok a, answered w s)
    end.

Definition getItem (key : string) : M (option text) :=
  call (fun s => (s !! key, s)).

Definition setItem (key : string) (t : text) : M unit :=
  call (fun s => (tt, <[key := t]> s)).

Definition removeItem (key : string) : M unit :=
  call (fun s => (tt, delete key s)).

End AsyncStorage.

Module Notifications.

(** The world once the host has answered the request [r]. *)
Definition asked (r : request) (w : world) : world :=
  {| storage := storage w;
     storage_faults := storage_faults w;
     deliveries := later (deliveries w);
     clock := clock w;
     calls := (r, deliveries w 0) :: calls w;
     console := console w |}.

Definition scheduleNotificationAsync (r : request) : M string :=
  fun w =>
    match deliveries w 0 with
    | inl e => (Throw e, asked r w)
    | inr id => (Ok id, asked r w)
    end.

End Notifications.

Module JSON.

Definition parse (t : text) : M value :=
  match t with
  | JsonText v => ret v
  | _ => throw SyntaxError
  end.

(** [JSON.stringify] of [undefined] is not a text; the service only
    serialises arrays. *)
Definition stringify (v : value) : M text :=
  match toJSON v with
  | Some j => ret (JsonText j)
  | None => throw TypeError
  end.

End JSON.

(** A [Date] object holds a time value, or is invalid ([None]). *)
Module Date.

(** The world once the clock has been read. *)
Definition ticked (w : world) : world :=
  {| storage := storage w;
     storage_faults := storage_faults w;
     deliveries := deliveries w;
     clock := later (clock w);
     calls := calls w;
     console := console w |}.

Definition now : M Z := fun w => (Ok (clock w 0), ticked w).

(** [new Date()] *)
Definition current : M (option Z) := (t <- now ;; ret (Some t)).

(** [new Date(x)] for a number [x] *)
Definition of_number (x : float) : option Z := JsDate.time_clip x.

Definition toISOString (d : option Z) : M string :=
  match d with
  | Some t => ret (JsDate.iso_string t)
  | None => throw RangeError
  end.

End Date.

Definition logged (l : log_entry) (w : world) : world :=
  {| storage := storage w;
     storage_faults := storage_faults w;
     deliveries := deliveries w;
     clock := clock w;
     calls := calls w;
     console := l :: console w |}.

Definition log_line (l : log_entry) : M unit := fun w => (Ok tt, logged l w).

Definition console_log (message detail : string) : M unit := log_line (Log message detail).
Definition console_error (message : string) (e : error) : M unit := log_line (Error message e).

(** ** The service *)

(** The object literal [{ ...spread, k1: v1, k2: v2, ... }]: properties
    are set from left to right, a later one replacing an earlier one. *)
Definition literal (spread : object) (props : list (string * value)) : object :=
  foldl (fun o kv => <[kv.1 := kv.2]> o) spread props.

(** The argument of [saveNotificationToHistory]; [scheduledAt] is absent
    for an immediate notification. *)
Record notification := {
  id : string;
  title : string;
  body : string;
  data : object;
  scheduledAt : option string;
}.

Definition historyKey : string := "notification_history".

(** The record [saveNotificationToHistory] builds, [receivedAt] being the
    ISO string of the current time. *)
Definition notificationItem (n : notification) (receivedAt : string) : value :=
  VObj (literal ∅
    [ ("id", VStr (id n));
      ("title", VStr (title n));
      ("body", VStr (body n));
      ("data", VObj (literal (data n)
         [ ("title", get (data n) "title");
           ("body", get (data n) "body");
           ("price", get (data n) "price");
           ("quantity", get (data n) "quantity") ]));
      ("receivedAt", VStr receivedAt);
      ("shleduledAt",
        or_else (from_option VStr VUndefined (scheduledAt n)) (VStr "")) ]).

(** [history.unshift(item)]: only an array has the method. *)
Definition unshift (history : value) (item : value) : M (list value) :=
  match history with
  | VArr items => ret (item :: items)
  | _ => throw TypeError
  end.

Definition saveNotificationToHistory (n : notification) : M unit :=
  try_catch
    (existingHistory <- AsyncStorage.getItem historyKey ;;
     history <- match existingHistory with
                | Some t => if nonempty t then JSON.parse t else ret (VArr [])
                | None => ret (VArr [])
                end ;;
     now <- Date.current ;;
     receivedAt <- Date.toISOString now ;;
     history <- unshift history (notificationItem n receivedAt) ;;
     (* Keep only last 50 notifications *)
     let trimmedHistory := take 50 history in
     blob <- JSON.stringify (VArr trimmedHistory) ;;
     AsyncStorage.setItem historyKey blob)
    (fun error => console_error "Error saving notification to history:" error).

Definition getNotificationHistory : M value :=
  try_catch
    (history <- AsyncStorage.getItem historyKey ;;
     match history with
     | Some t => if nonempty t then JSON.parse t else ret (VArr [])
     | None => ret (VArr [])
     end)
    (fun error =>
       console_error "Error getting notification history:" error ;;
       ret (VArr [])).

Definition clearNotificationHistory : M unit :=
  try_catch
    (AsyncStorage.removeItem historyKey)
    (fun error => console_error "Error clearing notification history:" error).

(** The content both delivery primitives hand to the host. *)
Definition alert (title body : string) (data : object) : content :=
  {| content_title := title;
     content_body := body;
     content_data := data;
     sound := true;
     priority := HIGH;
     vibrate := [0; 250; 250; 250]%Z;
     badge := 1 |}.

(** [data] is [None] when the caller leaves it out: it defaults to [{}]. *)
Definition sendLocalNotification (title body : string) (data : option object)
  : M string :=
  let data := default ∅ data in
  try_catch
    (notificationId <- Notifications.scheduleNotificationAsync
       {| request_content := alert title body
            (literal data
               [ ("title", VStr title);
                 ("body", VStr body);
                 ("price", or_else (get data "price") (VNum 0));
                 ("quantity", or_else (get data "quantity") (VNum 0)) ]);
          trigger := None |} ;;
     (* Save to notification history *)
     saveNotificationToHistory
       {| id := notificationId;
          title := title;
          body := body;
          data := literal data
            [ ("title", VStr title);
              ("body", VStr body);
              ("price", or_else (get data "price") (VNum 0));
              ("quantity", or_else (get data "quantity") (VNum 0)) ];
          scheduledAt := None |} ;;
     console_log "Local notification sent:" notificationId ;;
     ret notificationId)
    (fun error =>
       console_error "Error sending local notification:" error ;;
       throw error).

(** [seconds] is [None] when the caller leaves it out: it defaults to 60. *)
Definition scheduleNotification (title body : string) (data : option object)
  (seconds : option float) : M string :=
  let data := default ∅ data in
  let seconds := default 60%float seconds in
  try_catch
    (now <- Date.now ;;
     scheduledAt <- Date.toISOString
       (Date.of_number (Number.of_Z now + seconds * 1000)%float) ;;
     notificationId <- Notifications.scheduleNotificationAsync
       {| request_content := alert title body
            (literal ∅
               [ ("title", VStr title);
                 ("body", VStr body);
                 ("price", or_else (get data "price") (VNum 0));
                 ("quantity", or_else (get data "quantity") (VNum 0)) ]);
          trigger := Some seconds |} ;;
     (* Save to notification history *)
     saveNotificationToHistory
       {| id := notificationId;
          title := title;
          body := body;
          data := literal ∅
            [ ("title", VStr title);
              ("body", VStr body);
              ("price", or_else (get data "price") (VNum 0));
              ("quantity", or_else (get data "quantity") (VNum 0)) ];
          scheduledAt := Some scheduledAt |} ;;
     console_log "Notification scheduled:" notificationId ;;
     ret notificationId)
    (fun error =>
       console_error "Error scheduling notification:" error ;;
       throw error).

Record bookingDetails := { booking_title : string }.

Definition sendBookingConfirmationNotification (d : bookingDetails) : M string :=
  let title := booking_title d in
  let notificationTitle := "🎉 Booking Confirmed!" in
  let body := "Your " +:+ title +:+ " are wait you" in
  let data := literal ∅
    [ ("type", VStr "booking_confirmed");
      ("title", VStr title) ] in
  sendLocalNotification notificationTitle body (Some data).

Record paymentDetails := {
  amount : float;
  cardNumber : string;
  paymentId : string;
}.

Definition sendPaymentConfirmationNotification (d : paymentDetails) : M string :=
  let title := "💳 Payment Successful" in
  let body := "Your payment of $" +:+ Number.toFixed (amount d) 2 +:+
              " has been processed successfully!" in
  now <- Date.current ;;
  timestamp <- Date.toISOString now ;;
  let data := literal ∅
    [ ("title", VStr title);
      ("body", VStr body);
      ("price", VNum (amount d));
      ("quantity", VNum 1);
      ("type", VStr "payment_confirmed");
      ("paymentId", VStr (paymentId d));
      ("cardNumber", VStr (cardNumber d));
      ("timestamp", VStr timestamp) ] in
  sendLocalNotification title body (Some data).

Record orderDetails := {
  coffeeName : string;
  quantity : float;
  totalPrice : float;
  orderId : string;
}.

Definition orderConfirmationBody (d : orderDetails) : string :=
  "Your order of " +:+ Number.toString (quantity d) +:+ " " +:+ coffeeName d +:+ " " +:+
  (if (quantity d =? 1)%float then "is" else "are") +:+
  " confirmed. Total: $" +:+ Number.toFixed (totalPrice d) 2.

Definition sendOrderConfirmationNotification (d : orderDetails) : M string :=
  let title := "☕ Order Confirmed!" in
  let body := orderConfirmationBody d in
  now <- Date.current ;;
  timestamp <- Date.toISOString now ;;
  let data := literal ∅
    [ ("title", VStr title);
      ("body", VStr body);
      ("price", VNum (totalPrice d));
      ("quantity", VNum (quantity d));
      ("type", VStr "order_confirmed");
      ("orderId", VStr (orderId d));
      ("coffeeName", VStr (coffeeName d));
      ("timestamp", VStr timestamp) ] in
  sendLocalNotification title body (Some data).

Definition orderReadyBody (d : orderDetails) : string :=
  "Your " +:+ coffeeName d +:+ " " +:+
  (if (1 <? quantity d)%float
   then "(" +:+ Number.toString (quantity d) +:+ "x)" else "") +:+
  " is ready for pickup!".

Definition sendOrderReadyNotification (d : orderDetails) : M string :=
  let title := "✅ Your Order is Ready!" in
  let body := orderReadyBody d in
  let data := literal ∅
    [ ("title", VStr title);
      ("body", VStr body);
      ("price", VNum (totalPrice d));
      ("quantity", VNum (quantity d));
      ("type", VStr "order_ready");
      ("orderId", VStr (orderId d));
      ("coffeeName", VStr (coffeeName d)) ] in
  sendLocalNotification title body (Some data).

Record offerDetails := {
  offerTitle : string;
  offer_coffeeName : string;
  discountPrice : float;
  originalPrice : float;
}.

Definition sendSpecialOfferNotification (d : offerDetails) : M string :=
  let title := "🎉 Special Offer!" in
  let body := offerTitle d +:+ ": Get " +:+ offer_coffeeName d +:+ " for $" +:+
              Number.toFixed (discountPrice d) 2 +:+ " (was $" +:+
              Number.toFixed (originalPrice d) 2 +:+ ")" in
  let data := literal ∅
    [ ("title", VStr title);
      ("body", VStr body);
      ("price", VNum (discountPrice d));
      ("quantity", VNum 1);
      ("type", VStr "special_offer");
      ("coffeeName", VStr (offer_coffeeName d));
      ("originalPrice", VNum (originalPrice d)) ] in
  sendLocalNotification title body (Some data).

(** The operations of the dispatcher that deliver a notification. *)
Inductive operation : Type :=
| BookingConfirmation (d : bookingDetails)
| Local (title body : string) (data : option object)
| Scheduled (title body : string) (data : option object) (seconds : option float)
| PaymentConfirmation (d : paymentDetails)
| OrderConfirmation (d : orderDetails)
| OrderReady (d : orderDetails)
| SpecialOffer (d : offerDetails).

Definition run (op : operation) : M string :=
  match op with
  | BookingConfirmation d => sendBookingConfirmationNotification d
  | Local t b d => sendLocalNotification t b d
  | Scheduled t b d s => scheduleNotification t b d s
  | PaymentConfirmation d => sendPaymentConfirmationNotification d
  | OrderConfirmation d => sendOrderConfirmationNotification d
  | OrderReady d => sendOrderReadyNotification d
  | SpecialOffer d => sendSpecialOfferNotification d
  end.

(** ** The payload for a backend push service *)

(** The argument of [getServerNotificationPayload]: an order together
    with the push token of its user. *)
Record pushOrderDetails := {
  order :> orderDetails;
  pushToken : string;
}.

Definition getServerNotificationPayload (d : pushOrderDetails) : M value :=
  now <- Date.current ;;
  timestamp <- Date.toISOString now ;;
  ret (VObj (literal ∅
    [ ("to", VStr (pushToken d));
      ("sound", VStr "default");
      ("title", VStr "☕ Order Confirmed!");
      ("body", VStr ("Your order of " +:+ Number.toString (quantity d) +:+ " " +:+
                     coffeeName d +:+ " " +:+
                     (if (quantity d =? 1)%float then "is" else "are") +:+
                     " confirmed. Total: $" +:+ Number.toFixed (totalPrice d) 2));
      ("data", VObj (literal ∅
         [ ("title", VStr "☕ Order Confirmed!");
           ("body", VStr ("Your order of " +:+ Number.toString (quantity d) +:+ " " +:+
                          coffeeName d +:+ " " +:+
                          (if (quantity d =? 1)%float then "is" else "are") +:+
                          " confirmed. Total: $" +:+ Number.toFixed (totalPrice d) 2));
           ("price", VNum (totalPrice d));
           ("quantity", VNum (quantity d));
           ("type", VStr "order_confirmed");
           ("orderId", VStr (orderId d));
           ("coffeeName", VStr (coffeeName d));
           ("timestamp", VStr timestamp) ]));
      ("priority", VStr "high");
      ("channelId", VStr "order-updates") ])).

(** ** The notification screen

    The state of the screen that lists the history: the list it displays
    and whether it shows the refresh indicator. Each handler takes the
    state it starts from and resolves to the state it leaves. *)

Record screen := {
  notifications : value;
  refreshing : bool;
}.

Definition setNotifications (v : value) (s : screen) : screen :=
  {| notifications := v; refreshing := refreshing s |}.

Definition setRefreshing (b : bool) (s : screen) : screen :=
  {| notifications := notifications s; refreshing := b |}.

Definition fetchNotification (s : screen) : M screen :=
  try_catch
    (history <- getNotificationHistory ;;
     ret (setNotifications history s))
    (fun error =>
       console_error "Error fetching notifications:" error ;;
       ret s).

(** [clearAllDeliveredNotifications] is imported from another module of
    the application; the handler is defined for any such computation. *)
Definition handleClearAll (clearAllDeliveredNotifications : M unit) (s : screen)
  : M screen :=
  try_catch
    (clearAllDeliveredNotifications ;;
     clearNotificationHistory ;;
     ret (setNotifications (VArr []) s))
    (fun error =>
       console_error "Error clearing notifications:" error ;;
       ret s).

Definition onRefresh (s : screen) : M screen :=
  let s := setRefreshing true s in
  s <- fetchNotification s ;;
  ret (setRefreshing false s).

(** * Notions used by the statements *)

(** The list the history store holds in world [w], as
    [saveNotificationToHistory] reads it: nothing stored and the empty
    string count as the empty list; [None] when what is stored is not the
    text of an array. *)
Definition persisted (w : world) : option (list value) :=
  match storage w !! historyKey with
  | None | Some EmptyText => Some []
  | Some (JsonText (VArr items)) => Some items
  | _ => None
  end.

(** The length of the list [getNotificationHistory] returns: zero when it
    returns something that is not a list. *)
Definition history_length (w : world) : nat :=
  match storage w !! historyKey with
  | Some (JsonText (VArr items)) => length items
  | _ => 0
  end.

(** The storage never rejects a call. *)
Definition reliable (w : world) : Prop := ∀ i, storage_faults w i = None.

(** Successive calls of [saveNotificationToHistory]. *)
Fixpoint append_all (ns : list notification) : M unit :=
  match ns with
  | [] => ret tt
  | n :: ns' => saveNotificationToHistory n ;; append_all ns'
  end.

(** The records those calls build when the clock reads [c 0], [c 1], ... *)
Fixpoint items_from (c : nat → Z) (ns : list notification) : list value :=
  match ns with
  | [] => []
  | n :: ns' => notificationItem n (JsDate.iso_string (c 0)) :: items_from (later c) ns'
  end.

(** The list the store holds after a record is written in front of
    [items]. *)
Definition push (items : list value) (item : value) : list value :=
  json_elem <$> take 50 (item :: items).

(** The [data] of a history record. *)
Definition record_data (r : value) : option object :=
  match r with
  | VObj props => match props !! "data" with Some (VObj d) => Some d | _ => None end
  | _ => None
  end.

(** A property of a history record. *)
Definition record_prop (r : value) (k : string) : option value :=
  match r with VObj props => props !! k | _ => None end.

(** What [sendLocalNotification] hands to the host and to the store. *)
Definition local_data (title body : string) (data : option object) : object :=
  literal (default ∅ data)
    [ ("title", VStr title);
      ("body", VStr body);
      ("price", or_else (get (default ∅ data) "price") (VNum 0));
      ("quantity", or_else (get (default ∅ data) "quantity") (VNum 0)) ].

(** Its request and the record it hands to the store. *)
Definition local_request (title body : string) (data : option object) : request :=
  {| request_content := alert title body (local_data title body data);
     trigger := None |}.

Definition local_record (id title body : string) (data : option object) : notification :=
  {| id := id; title := title; body := body;
     data := local_data title body data; scheduledAt := None |}.

(** The time [scheduleNotification] computes when the clock reads [now]. *)
Definition scheduled_time (now : Z) (seconds : option float) : option Z :=
  Date.of_number (Number.of_Z now + default 60%float seconds * 1000)%float.

(** What [scheduleNotification] hands to the host and to the store. *)
Definition scheduled_data (title body : string) (data : option object) : object :=
  literal ∅
    [ ("title", VStr title);
      ("body", VStr body);
      ("price", or_else (get (default ∅ data) "price") (VNum 0));
      ("quantity", or_else (get (default ∅ data) "quantity") (VNum 0)) ].

Definition scheduled_request (title body : string) (data : option object)
  (seconds : option float) : request :=
  {| request_content := alert title body (scheduled_data title body data);
     trigger := Some (default 60%float seconds) |}.

Definition scheduled_record (id title body : string) (data : option object)
  (at_ : string) : notification :=
  {| id := id; title := title; body := body;
     data := scheduled_data title body data; scheduledAt := Some at_ |}.

(** The run of [op] in [w] makes a delivery call, and the host answers it
    with [out]: a rejection [inl e] or an identifier [inr id]. *)
Definition delivery (op : operation) (w : world) (out : error + string) : Prop :=
  ∃ req, calls (snd (run op w)) = (req, out) :: calls w.

(** The body of the request the operation hands to the host. *)
Definition sent_body (op : operation) (w : world) : option string :=
  match calls (snd (run op w)) with
  | (req, _) :: _ => Some (content_body (request_content req))
  | [] => None
  end.

(** The four properties both primitives set in [data]. *)
Definition copied : list string := ["title"; "body"; "price"; "quantity"].

(** A finite number of magnitude below [10^21], where [toFixed] prints
    digits rather than an exponent. *)
Definition is_amount (x : float) : bool :=
  match Prim2SF x with
  | S754_zero _ => true
  | S754_finite _ m e => (Number.num m e <? 10 ^ 21 * Number.den e)%Z
  | _ => false
  end.

(** [s] writes the multiple of 0.01 nearest to the number [x]: an optional
    minus sign, the digits of the whole part, a point and exactly two
    digits. With [n] hundredths written, [x] differs from [n / 100] by at
    most half a hundredth. *)
Definition shows_amount (s : string) (x : float) : Prop :=
  ∃ sign whole cents n,
    s = sign +:+ whole +:+ "." +:+ cents ∧
    whole ≠ "" ∧ String.length cents = 2%nat ∧
    read_digits whole 0 = Some (n / 100)%Z ∧
    read_digits cents 0 = Some (n mod 100)%Z ∧
    (0 <= n)%Z ∧
    match Prim2SF x with
    | S754_zero _ => sign = "" ∧ n = 0%Z
    | S754_finite negative m e =>
        sign = (if negative then "-" else "") ∧
        (Z.abs (200 * Number.num m e - 2 * n * Number.den e) <= Number.den e)%Z
    | _ => False
    end.

(** ** Reading a timestamp back

    A string is a valid timestamp when [parse_iso] reads a time value from
    it. *)

(** Day number of the date [y]-[m]-[d] of the proleptic Gregorian
    calendar, counted from 1970-01-01. *)
Definition days_of_civil (y m d : Z) : Z :=
  let y := (if (m <=? 2)%Z then y - 1 else y)%Z in
  let era := (y / 400)%Z in
  let yoe := (y - era * 400)%Z in
  let mp := (if (2 <? m)%Z then m - 3 else m + 9)%Z in
  let doy := ((153 * mp + 2) / 5 + d - 1)%Z in
  let doe := (yoe * 365 + yoe / 4 - yoe / 100 + doy)%Z in
  (era * 146097 + doe - 719468)%Z.

Definition between (lo x hi : Z) : bool := ((lo <=? x) && (x <=? hi))%Z.

(** The time value written as [-MM-DDTHH:mm:ss.sssZ] after the year [y]. *)
Definition parse_after_year (y : Z) (s : string) : option Z :=
  if negb (String.length s =? 20)%nat then None
  else if negb (String.eqb (substring 0 1 s) "-" && String.eqb (substring 3 1 s) "-" &&
                String.eqb (substring 6 1 s) "T" && String.eqb (substring 9 1 s) ":" &&
                String.eqb (substring 12 1 s) ":" && String.eqb (substring 15 1 s) "." &&
                String.eqb (substring 19 1 s) "Z") then None
  else
    match read_digits (substring 1 2 s) 0, read_digits (substring 4 2 s) 0,
          read_digits (substring 7 2 s) 0, read_digits (substring 10 2 s) 0,
          read_digits (substring 13 2 s) 0, read_digits (substring 16 3 s) 0 with
    | Some m, Some d, Some h, Some mi, Some sec, Some ms =>
        if between 1 m 12 && between 1 d 31 && between 0 h 23 &&
           between 0 mi 59 && between 0 sec 59
        then Some (days_of_civil y m d * JsDate.ms_per_day + h * 3600000 +
                   mi * 60000 + sec * 1000 + ms)%Z
        else None
    | _, _, _, _, _, _ => None
    end.

(** The time value a timestamp of the form [YYYY-MM-DDTHH:mm:ss.sssZ] or
    [±YYYYYY-MM-DDTHH:mm:ss.sssZ] denotes; [None] for any other string. *)
Definition parse_iso (s : string) : option Z :=
  match s with
  | String "+" s' =>
      match read_digits (substring 0 6 s') 0 with
      | Some y => parse_after_year y (after 6 s')
      | None => None
      end
  | String "-" s' =>
      match read_digits (substring 0 6 s') 0 with
      | Some y => if (y =? 0)%Z then None else parse_after_year (- y) (after 6 s')
      | None => None
      end
  | _ =>
      match read_digits (substring 0 4 s) 0 with
      | Some y => parse_after_year y (after 4 s)
      | None => None
      end
  end.

(** ** Notions for the whole dispatcher *)

(** The world in which an operation asks the host: three operations read
    the clock first. *)
Definition before_request (op : operation) (w : world) : world :=
  match op with
  | Scheduled _ _ _ _ | PaymentConfirmation _ | OrderConfirmation _ => Date.ticked w
  | _ => w
  end.

(** The console lines of the two delivery primitives. *)
Definition success_line (op : operation) : string :=
  match op with
  | Scheduled _ _ _ _ => "Notification scheduled:"
  | _ => "Local notification sent:"
  end.

Definition failure_line (op : operation) : string :=
  match op with
  | Scheduled _ _ _ _ => "Error scheduling notification:"
  | _ => "Error sending local notification:"
  end.

(** The record a primitive hands to the store for the content [c] it
    delivered under the identifier [id]. *)
Definition mirrored (id : string) (c : content) (at_ : option string) : notification :=
  {| id := id;
     title := content_title c;
     body := content_body c;
     data := content_data c;
     scheduledAt := at_ |}.

(** ** The shape of the history *)

(** The six properties of a stored record. *)
Definition record_keys : list string :=
  ["id"; "title"; "body"; "data"; "receivedAt"; "shleduledAt"].

Definition is_text (v : option value) : bool :=
  match v with Some (VStr _) => true | _ => false end.

(** A record as [saveNotificationToHistory] stores it: five strings, an
    object under [data], and no other property. *)
Definition is_record (r : value) : bool :=
  match r with
  | VObj props =>
      is_text (props !! "id") && is_text (props !! "title") &&
      is_text (props !! "body") && is_text (props !! "receivedAt") &&
      is_text (props !! "shleduledAt") &&
      match props !! "data" with Some (VObj _) => true | _ => false end &&
      bool_decide (dom props ⊆ list_to_set record_keys)
  | _ => false
  end.

(** The storage holds no history, or a history of at most 50 records. *)
Definition well_formed (w : world) : Prop :=
  ∃ items, persisted w = Some items ∧ length items ≤ 50 ∧
           Forall (fun r => is_record r = true) items.

(** The calls a client of the service can make. *)
Inductive command : Type :=
| Dispatch (op : operation)
| Append (n : notification)
| ReadHistory
| ClearHistory
| ServerPayload (d : pushOrderDetails).

(** The world a call leaves, whether it resolves or rejects. *)
Definition exec (w : world) (c : command) : world :=
  match c with
  | Dispatch op => snd (run op w)
  | Append n => snd (saveNotificationToHistory n w)
  | ReadHistory => snd (getNotificationHistory w)
  | ClearHistory => snd (clearNotificationHistory w)
  | ServerPayload d => snd (getServerNotificationPayload d w)
  end.

Definition exec_all (cs : list command) (w : world) : world := foldl exec w cs.

(** ** Appends that overlap

    [saveNotificationToHistory] awaits the storage twice, for its read
    and for its write. A second call started before the first has
    finished runs while the first one waits; each call goes on with the
    list its own read returned. *)

(** The rest of [saveNotificationToHistory] once its read has been
    answered with [r], a value or a rejection. *)
Definition save_after_read (n : notification) (r : outcome (option text)) : M unit :=
  try_catch
    (existingHistory <- (fun w => (r, w)) ;;
     history <- match existingHistory with
                | Some t => if nonempty t then JSON.parse t else ret (VArr [])
                | None => ret (VArr [])
                end ;;
     now <- Date.current ;;
     receivedAt <- Date.toISOString now ;;
     history <- unshift history (notificationItem n receivedAt) ;;
     let trimmedHistory := take 50 history in
     blob <- JSON.stringify (VArr trimmedHistory) ;;
     AsyncStorage.setItem historyKey blob)
    (fun error => console_error "Error saving notification to history:" error).

(** Two appends in flight together: both reads are answered before
    either call goes on; the call for [first] then writes before the call
    for [second]. *)
Definition overlapped (first second : notification) : M unit :=
  fun w =>
    let '(r1, w1) := AsyncStorage.getItem historyKey w in
    let '(r2, w2) := AsyncStorage.getItem historyKey w1 in
    let '(_, w3) := save_after_read first r1 w2 in
    save_after_read second r2 w3.

(** ** Sample inputs and worlds *)

(** A world for examples: the given storage, a host that never fails and
    numbers its notifications, a clock that starts at [t0] and advances by
    one millisecond per reading. *)
Definition quiet (t0 : Z) (stored : gmap string text) : world :=
  {| storage := stored;
     storage_faults := fun _ => None;
     deliveries := fun n => inr ("n" +:+ decimal (Z.of_nat n));
     clock := fun n => (t0 + Z.of_nat n)%Z;
     calls := [];
     console := [] |}.

(** The host rejects the next delivery with [e]. *)
Definition rejecting (e : error) (w : world) : world :=
  {| storage := storage w;
     storage_faults := storage_faults w;
     deliveries := fun n => match n with O => inl e | S n' => deliveries w n' end;
     clock := clock w;
     calls := calls w;
     console := console w |}.

(** The storage rejects its [k]-th next call with [e]. *)
Definition failing (k : nat) (e : error) (w : world) : world :=
  {| storage := storage w;
     storage_faults := fun n => if Nat.eqb n k then Some e else storage_faults w n;
     deliveries := deliveries w;
     clock := clock w;
     calls := calls w;
     console := console w |}.

(** A storage holding a history of [k] elements. *)
Definition stocked (k : nat) : gmap string text :=
  {[ historyKey := JsonText (VArr (replicate k VNull)) ]}.

Definition sample (i : nat) : notification :=
  {| id := "n" +:+ decimal (Z.of_nat i);
     title := "T";
     body := "B";
     data := literal ∅ [ ("title", VStr "T"); ("body", VStr "B");
                         ("price", VNum 0); ("quantity", VNum 0) ];
     scheduledAt := None |}.

Definition latte : orderDetails :=
  {| coffeeName := "Latte"; quantity := 1; totalPrice := 4.5; orderId := "o1" |}.

Definition tagged : option object :=
  Some (literal ∅ [ ("type", VStr "order_ready"); ("orderId", VStr "o1");
                    ("price", VNum 4.5) ]).

(** A measure for induction on values. *)
Fixpoint vsize (v : value) : nat :=
  match v with
  | VArr items => S (foldr (fun x n => vsize x + n) 0 items)
  | VObj props => S (map_fold (fun _ x n => vsize x + n) 0 props)
  | _ => 1
  end.

(** * Facts *)

Ltac Zify.zify_post_hook ::= Z.to_euclidean_division_equations.

(** ** Induction on values *)

Lemma vsize_elem (x : value) (items : list value) :
  x ∈ items → vsize x < vsize (VArr items).
Proof.
  intros Hin. simpl. induction Hin as [x l | x y l _ IH]; simpl in *; lia.
Qed.

Lemma vsize_prop (k : string) (x : value) (props : gmap string value) :
  props !! k = Some x → vsize x < vsize (VObj props).
Proof.
  intros Hk. simpl.
  rewrite <- (insert_delete_id props k x Hk).
  rewrite map_fold_insert_L.
  - lia.
  - intros; lia.
  - apply lookup_delete_eq.
Qed.

Lemma value_ind_nested (P : value → Prop) :
  P VUndefined → P VNull → (∀ b, P (VBool b)) → (∀ x, P (VNum x)) →
  (∀ s, P (VStr s)) →
  (∀ items, Forall P items → P (VArr items)) →
  (∀ props, map_Forall (fun _ x => P x) props → P (VObj props)) →
  ∀ v, P v.
Proof.
  intros Hu Hn Hb Hx Hs Ha Ho v.
  remember (vsize v) as n eqn:Hsize.
  revert v Hsize.
  induction (lt_wf n) as [n _ IH]. intros v ->.
  destruct v as [| | b | x | s | items | props]; auto.
  - apply Ha, Forall_forall. intros x Hin.
    eapply IH; [ apply (vsize_elem _ _ Hin) | reflexivity ].
  - apply Ho. intros k x Hk.
    eapply IH; [ apply (vsize_prop _ _ _ Hk) | reflexivity ].
Qed.

(** ** JSON *)

Lemma json_number_fixed (x : float) (j : value) :
  json_number x = j → toJSON j = Some j.
Proof.
  unfold json_number. intros <-.
  destruct (PrimFloat.is_finite x) eqn:Hfin; [| reflexivity ].
  destruct (PrimFloat.is_zero x) eqn:Hzero; [ reflexivity |].
  simpl. unfold json_number. rewrite Hfin, Hzero. reflexivity.
Qed.

(** Writing a value that was read back changes nothing: the text of a
    JSON value denotes that value. *)
Lemma toJSON_fixed (v j : value) : toJSON v = Some j → toJSON j = Some j.
Proof.
  revert j. induction v as [| | b | x | s | items IH | props IH]
    using value_ind_nested; simpl; intros j Hj; simplify_eq; try reflexivity.
  - eapply json_number_fixed. reflexivity.
  - simpl. do 2 f_equal. rewrite <- list_fmap_compose.
    apply Forall_fmap_ext_1. eapply Forall_impl; [ exact IH |].
    intros x Hx. simpl. unfold json_elem.
    destruct (toJSON x) as [y |] eqn:Hy; simpl; [| reflexivity ].
    rewrite (Hx y Hy). reflexivity.
  - simpl. do 2 f_equal. apply map_eq. intros k.
    rewrite !lookup_omap.
    destruct (props !! k) as [x |] eqn:Hk; simpl; [| reflexivity ].
    destruct (toJSON x) as [y |] eqn:Hy; simpl; [| reflexivity ].
    apply (IH k x Hk y Hy).
Qed.

Lemma json_elem_fixed (x : value) : json_elem (json_elem x) = json_elem x.
Proof.
  unfold json_elem. destruct (toJSON x) as [y |] eqn:Hy; simpl; [| reflexivity ].
  rewrite (toJSON_fixed _ _ Hy). reflexivity.
Qed.

Lemma json_elem_twice (l : list value) :
  json_elem <$> (json_elem <$> l) = json_elem <$> l.
Proof.
  rewrite <- list_fmap_compose. apply list_fmap_ext.
  intros _ x _. apply json_elem_fixed.
Qed.

Lemma toJSON_defined (v j : value) : toJSON v = Some j → j ≠ VUndefined.
Proof.
  destruct v; simpl; intros Hj; simplify_eq; try discriminate.
  unfold json_number. destruct (PrimFloat.is_finite x); discriminate.
Qed.

Lemma json_elem_defined (v : value) :
  v ≠ VUndefined → toJSON v = Some (json_elem v) ∧ json_elem v ≠ VUndefined.
Proof.
  intros Hv. unfold json_elem. destruct (toJSON v) as [j |] eqn:Hj.
  - split; [ reflexivity |]. apply (toJSON_defined _ _ Hj).
  - destruct v; done.
Qed.

Lemma or_else_defined (v : value) : or_else v (VNum 0) ≠ VUndefined.
Proof. unfold or_else. destruct v; simpl; try done; case_match; done. Qed.

(** ** Strings and digits *)

Lemma append_assoc (a b c : string) : (a +:+ b) +:+ c = a +:+ (b +:+ c).
Proof.
  induction a as [| x a IH]; [ reflexivity |].
  change (String x ((a +:+ b) +:+ c) = String x (a +:+ (b +:+ c))).
  f_equal. exact IH.
Qed.

Lemma substring_all (s : string) : substring 0 (String.length s) s = s.
Proof. induction s as [| c s IH]; simpl; [ reflexivity | by rewrite IH ]. Qed.

Lemma substring_prefix (a r : string) :
  substring 0 (String.length a) (a +:+ r) = a.
Proof.
  induction a as [| c a IH]; [ destruct r; reflexivity |].
  change (String c (substring 0 (String.length a) (a +:+ r)) = String c a).
  by rewrite IH.
Qed.

Lemma after_prefix (a r : string) : after (String.length a) (a +:+ r) = r.
Proof.
  induction a as [| c a IH].
  - unfold after. simpl. rewrite Nat.sub_0_r. apply substring_all.
  - exact IH.
Qed.

Lemma digit_char_is_digit (z : Z) : is_digit (digit_char (z mod 10)) = true.
Proof.
  pose proof (Z.mod_pos_bound z 10 eq_refl) as Hz.
  unfold is_digit, digit_char.
  rewrite nat_ascii_embedding by lia.
  apply andb_true_iff. split; apply Nat.leb_le; lia.
Qed.

Lemma digit_value_char (z : Z) :
  (0 <= z < 10)%Z → digit_value (digit_char z) = Some z.
Proof.
  intros Hz. unfold digit_value, is_digit, digit_char.
  rewrite nat_ascii_embedding by lia.
  replace (48 <=? 48 + Z.to_nat z)%nat with true by (symmetry; apply Nat.leb_le; lia).
  replace (48 + Z.to_nat z <=? 57)%nat with true by (symmetry; apply Nat.leb_le; lia).
  simpl. f_equal. lia.
Qed.

Lemma digits_fuel_nonempty (fuel : nat) :
  ∀ n acc, acc ≠ "" → digits_fuel fuel n acc ≠ "".
Proof.
  induction fuel as [| fuel IH]; intros n acc Hacc; cbn [digits_fuel]; [ exact Hacc |].
  destruct (n <? 10)%Z; [ done | apply IH; done ].
Qed.

Lemma decimal_nonempty (n : Z) : decimal n ≠ "".
Proof.
  unfold decimal. cbn [digits_fuel].
  destruct (n <? 10)%Z; [ done | apply digits_fuel_nonempty; done ].
Qed.

Lemma read_digits_fuel (fuel : nat) :
  ∀ n acc, (0 <= n < 2 ^ Z.of_nat fuel)%Z →
           read_digits (digits_fuel fuel n acc) 0 = read_digits acc n.
Proof.
  induction fuel as [| fuel IH]; intros n acc Hn.
  - simpl in Hn. replace n with 0%Z by lia. reflexivity.
  - cbn [digits_fuel]. rewrite Nat2Z.inj_succ, Z.pow_succ_r in Hn by lia.
    destruct (Z.ltb_spec n 10).
    + cbn [read_digits]. replace (n mod 10)%Z with n by lia.
      rewrite digit_value_char by lia. reflexivity.
    + rewrite IH by lia. cbn [read_digits].
      rewrite digit_value_char by lia. f_equal. lia.
Qed.

Lemma read_decimal (n : Z) : (0 <= n)%Z → read_digits (decimal n) 0 = Some n.
Proof.
  intros Hn. unfold decimal. rewrite read_digits_fuel; [ reflexivity |].
  split; [ exact Hn |].
  destruct (Z.eq_dec n 0%Z) as [-> | Hne]; [ reflexivity |].
  rewrite Nat2Z.inj_succ, Z2Nat.id by apply Z.log2_nonneg.
  apply Z.log2_spec. lia.
Qed.

Lemma read_pad2 (n : Z) :
  (0 <= n < 100)%Z → read_digits (pad 2 n) 0 = Some n.
Proof.
  intros Hn. unfold pad. cbn [fixed_digits read_digits].
  rewrite !digit_value_char by lia. f_equal. lia.
Qed.

Lemma read_pad3 (n : Z) :
  (0 <= n < 1000)%Z → read_digits (pad 3 n) 0 = Some n.
Proof.
  intros Hn. unfold pad. cbn [fixed_digits read_digits].
  rewrite !digit_value_char by lia. f_equal. lia.
Qed.

Lemma read_pad4 (n : Z) :
  (0 <= n < 10000)%Z → read_digits (pad 4 n) 0 = Some n.
Proof.
  intros Hn. unfold pad. cbn [fixed_digits read_digits].
  rewrite !digit_value_char by lia. f_equal. lia.
Qed.

Lemma read_pad6 (n : Z) :
  (0 <= n < 1000000)%Z → read_digits (pad 6 n) 0 = Some n.
Proof.
  intros Hn. unfold pad. cbn [fixed_digits read_digits].
  rewrite !digit_value_char by lia. f_equal. lia.
Qed.

(** ** Amounts *)

Lemma den_positive (e : Z) : (0 < Number.den e)%Z.
Proof. unfold Number.den. apply Z.pow_pos_nonneg; lia. Qed.

Lemma num_positive (m : positive) (e : Z) : (0 < Number.num m e)%Z.
Proof.
  unfold Number.num. apply Z.mul_pos_pos; [ lia |]. apply Z.pow_pos_nonneg; lia.
Qed.

Lemma scaled_round_nearest (m : positive) (e : Z) (f : nat) :
  let n := Number.scaled_round m e f in
  (0 <= n ∧
   Z.abs (2 * Number.num m e * 10 ^ Z.of_nat f - 2 * n * Number.den e) <= Number.den e)%Z.
Proof.
  unfold Number.scaled_round.
  pose proof (den_positive e) as Hd. pose proof (num_positive m e) as Hn.
  set (D := Number.den e) in *. set (N := Number.num m e) in *.
  assert (Hp : (0 < 10 ^ Z.of_nat f)%Z) by (apply Z.pow_pos_nonneg; lia).
  set (P := (10 ^ Z.of_nat f)%Z) in *.
  pose proof (Z.div_mod (2 * N * P + D) (2 * D) ltac:(lia)) as Hdm.
  pose proof (Z.mod_pos_bound (2 * N * P + D) (2 * D) ltac:(lia)) as Hmod.
  set (q := ((2 * N * P + D) / (2 * D))%Z) in *.
  split.
  - apply Z.div_pos; nia.
  - nia.
Qed.

Lemma toFixed_shows_amount (x : float) :
  is_amount x = true → shows_amount (Number.toFixed x 2) x.
Proof.
  unfold is_amount, Number.toFixed, shows_amount.
  destruct (Prim2SF x) as [s | s | | s m e]; try discriminate; intros Hx.
  - exists "", "0", "00", 0%Z. repeat split; done.
  - rewrite Z.leb_antisym, Hx. cbn [negb].
    destruct (scaled_round_nearest m e 2) as [Hn Hnear].
    set (n := Number.scaled_round m e 2) in *.
    exists (if s then "-" else ""), (decimal (n / 10 ^ Z.of_nat 2)), (pad 2 n), n.
    split; [ reflexivity |].
    split; [ apply decimal_nonempty |].
    split; [ reflexivity |].
    split; [ apply read_decimal, Z.div_pos; [ exact Hn | reflexivity ] |].
    split.
    { unfold pad. cbn [fixed_digits read_digits].
      rewrite !digit_value_char by lia. f_equal. lia. }
    split; [ exact Hn |]. split; [ reflexivity |].
    change (10 ^ Z.of_nat 2)%Z with 100%Z in Hnear. lia.
Qed.

(** ** Dates *)

Lemma civil_of_days_range (z : Z) :
  let '(y, m, d) := JsDate.civil_of_days z in
  (1 <= m <= 12)%Z ∧ (1 <= d <= 31)%Z ∧ days_of_civil y m d = z.
Proof.
  unfold JsDate.civil_of_days, days_of_civil.
  set (z' := (z + 719468)%Z).
  set (era := (z' / 146097)%Z).
  set (doe := (z' - era * 146097)%Z).
  assert (Hdoe : (0 <= doe <= 146096)%Z) by (unfold doe, era; lia).
  set (yoe := ((doe - doe / 1460 + doe / 36524 - doe / 146096) / 365)%Z).
  assert (Hyoe : (0 <= yoe <= 399 ∧
                  0 <= doe - (365 * yoe + yoe / 4 - yoe / 100) <= 365)%Z)
    by (unfold yoe; lia).
  set (doy := (doe - (365 * yoe + yoe / 4 - yoe / 100))%Z) in *.
  set (mp := ((5 * doy + 2) / 153)%Z).
  assert (Hmp : (0 <= mp <= 11)%Z) by (unfold mp; lia).
  set (d := (doy - (153 * mp + 2) / 5 + 1)%Z).
  assert (Hd : (1 <= d <= 31)%Z) by (unfold d, mp; lia).
  destruct (Z.ltb_spec mp 10).
  - replace (mp + 3 <=? 2)%Z with false by lia.
    replace (2 <? mp + 3)%Z with true by lia.
    split; [ lia |]. split; [ exact Hd |].
    replace ((yoe + era * 400 + 0) / 400)%Z with era by lia.
    unfold d, doy, doe, z'. lia.
  - replace (mp - 9 <=? 2)%Z with true by lia.
    replace (2 <? mp - 9)%Z with false by lia.
    split; [ lia |]. split; [ exact Hd |].
    replace ((yoe + era * 400 + 1 - 1) / 400)%Z with era by lia.
    unfold d, doy, doe, z'. lia.
Qed.

Lemma year_range (t y m d : Z) :
  (- JsDate.max_time <= t <= JsDate.max_time)%Z →
  (1 <= m <= 12)%Z → (1 <= d <= 31)%Z →
  days_of_civil y m d = (t / JsDate.ms_per_day)%Z →
  (-271821 <= y <= 275760)%Z.
Proof.
  unfold JsDate.max_time, JsDate.ms_per_day, days_of_civil.
  intros Ht Hm Hd Hy.
  destruct (Z.leb_spec m 2), (Z.ltb_spec 2 m); lia.
Qed.

Lemma parse_after_year_fields (y m d h mi sec ms : Z) :
  (1 <= m <= 12)%Z → (1 <= d <= 31)%Z → (0 <= h <= 23)%Z →
  (0 <= mi <= 59)%Z → (0 <= sec <= 59)%Z → (0 <= ms <= 999)%Z →
  parse_after_year y
    ("-" +:+ pad 2 m +:+ "-" +:+ pad 2 d +:+ "T" +:+ pad 2 h +:+ ":" +:+
     pad 2 mi +:+ ":" +:+ pad 2 sec +:+ "." +:+ pad 3 ms +:+ "Z") =
  Some (days_of_civil y m d * JsDate.ms_per_day + h * 3600000 + mi * 60000 +
        sec * 1000 + ms)%Z.
Proof.
  intros Hm Hd Hh Hmi Hsec Hms.
  pose proof (read_pad2 m ltac:(lia)) as Rm.
  pose proof (read_pad2 d ltac:(lia)) as Rd.
  pose proof (read_pad2 h ltac:(lia)) as Rh.
  pose proof (read_pad2 mi ltac:(lia)) as Rmi.
  pose proof (read_pad2 sec ltac:(lia)) as Rsec.
  pose proof (read_pad3 ms ltac:(lia)) as Rms.
  unfold pad in *. cbn [fixed_digits] in *.
  unfold parse_after_year.
  cbv [String.append String.length substring Nat.eqb negb String.eqb Ascii.eqb
       Bool.eqb andb].
  rewrite Rm, Rd, Rh, Rmi, Rsec, Rms.
  unfold between.
  repeat match goal with
         | |- context [(?a <=? ?b)%Z] =>
             replace (a <=? b)%Z with true by (symmetry; apply Z.leb_le; lia)
         end.
  reflexivity.
Qed.

Lemma parse_iso_digit (c : ascii) (s : string) :
  is_digit c = true →
  parse_iso (String c s) =
    match read_digits (substring 0 4 (String c s)) 0 with
    | Some y => parse_after_year y (after 4 (String c s))
    | None => None
    end.
Proof.
  destruct c as [[] [] [] [] [] [] [] []]; intros Hc;
    try discriminate Hc; reflexivity.
Qed.

Theorem iso_string_reads_back (t : Z) :
  (- JsDate.max_time <= t <= JsDate.max_time)%Z →
  parse_iso (JsDate.iso_string t) = Some t.
Proof.
  intros Ht. unfold JsDate.iso_string.
  pose proof (civil_of_days_range (t / JsDate.ms_per_day)) as Hciv.
  destruct (JsDate.civil_of_days (t / JsDate.ms_per_day)) as [[y m] d].
  destruct Hciv as (Hm & Hd & Hdays).
  pose proof (year_range t y m d Ht Hm Hd Hdays) as Hy.
  set (ms := (t mod JsDate.ms_per_day)%Z).
  assert (Hms : (0 <= ms < 86400000)%Z) by (unfold ms, JsDate.ms_per_day; lia).
  assert (Hfields : ∀ y',
    parse_after_year y'
      ("-" +:+ pad 2 m +:+ "-" +:+ pad 2 d +:+ "T" +:+ pad 2 (ms / 3600000) +:+ ":" +:+
       pad 2 (ms / 60000 mod 60) +:+ ":" +:+ pad 2 (ms / 1000 mod 60) +:+ "." +:+
       pad 3 (ms mod 1000) +:+ "Z") =
    Some (days_of_civil y' m d * JsDate.ms_per_day + ms)%Z).
  { intros y'. rewrite parse_after_year_fields by lia. f_equal. lia. }
  assert (Ht' : (days_of_civil y m d * JsDate.ms_per_day + ms)%Z = t)
    by (rewrite Hdays; unfold ms, JsDate.ms_per_day; lia).
  revert Hfields.
  generalize ("-" +:+ pad 2 m +:+ "-" +:+ pad 2 d +:+ "T" +:+ pad 2 (ms / 3600000) +:+ ":" +:+
       pad 2 (ms / 60000 mod 60) +:+ ":" +:+ pad 2 (ms / 1000 mod 60) +:+ "." +:+
       pad 3 (ms mod 1000) +:+ "Z").
  intros rest Hrest.
  unfold JsDate.year_text.
  destruct ((0 <=? y)%Z && (y <=? 9999)%Z) eqn:Hshort.
  - apply andb_true_iff in Hshort as [H0 H9]. apply Z.leb_le in H0, H9.
    assert (Hfour : substring 0 4 (pad 4 y +:+ rest) = pad 4 y)
      by apply (substring_prefix (pad 4 y)).
    assert (Hafter : after 4 (pad 4 y +:+ rest) = rest)
      by apply (after_prefix (pad 4 y)).
    assert (Hdigit :
      parse_iso (pad 4 y +:+ rest) =
        match read_digits (substring 0 4 (pad 4 y +:+ rest)) 0 with
        | Some y0 => parse_after_year y0 (after 4 (pad 4 y +:+ rest))
        | None => None
        end)
      by apply (parse_iso_digit (digit_char (y / 10 / 10 / 10 mod 10))),
               digit_char_is_digit.
    rewrite Hdigit, Hfour, Hafter, read_pad4 by lia.
    rewrite Hrest. f_equal. exact Ht'.
  - assert (Hlong : (y < 0 ∨ 9999 < y)%Z).
    { apply andb_false_iff in Hshort as [H | H];
        [ apply Z.leb_gt in H | apply Z.leb_gt in H ]; lia. }
    assert (Hsix : read_digits (substring 0 6 (pad 6 (Z.abs y) +:+ rest)) 0 =
                   Some (Z.abs y)).
    { change 6%nat with (String.length (pad 6 (Z.abs y))).
      rewrite substring_prefix. apply read_pad6. lia. }
    assert (Hafter : after 6 (pad 6 (Z.abs y) +:+ rest) = rest)
      by apply (after_prefix (pad 6 (Z.abs y))).
    destruct (Z.ltb_spec y 0).
    + change (parse_iso (String "-" (pad 6 (Z.abs y) +:+ rest)) = Some t).
      cbn [parse_iso]. rewrite Hsix, Hafter.
      replace (Z.abs y =? 0)%Z with false by lia.
      replace (- Z.abs y)%Z with y by lia.
      rewrite Hrest. f_equal. exact Ht'.
    + change (parse_iso (String "+" (pad 6 (Z.abs y) +:+ rest)) = Some t).
      cbn [parse_iso]. rewrite Hsix, Hafter.
      replace (Z.abs y) with y by lia.
      rewrite Hrest. f_equal. exact Ht'.
Qed.

Lemma time_clip_range (x : float) (t : Z) :
  JsDate.time_clip x = Some t → (- JsDate.max_time <= t <= JsDate.max_time)%Z.
Proof.
  unfold JsDate.time_clip. destruct (Number.truncate x) as [t' |]; [| done ].
  destruct (Z.leb_spec (Z.abs t') JsDate.max_time); intros Heq; simplify_eq. lia.
Qed.

(** ** The history store *)

Ltac run_service :=
  unfold saveNotificationToHistory, getNotificationHistory,
    clearNotificationHistory, unshift,
    AsyncStorage.getItem, AsyncStorage.setItem, AsyncStorage.removeItem,
    AsyncStorage.call, AsyncStorage.answered, JSON.parse, JSON.stringify,
    Date.current, Date.toISOString, Date.now, console_error, console_log,
    log_line, logged, Date.ticked, later, nonempty, try_catch, bind, ret, throw in *;
  simpl in *.

Lemma save_resolves (n : notification) (w : world) :
  fst (saveNotificationToHistory n w) = Ok tt.
Proof.
  run_service. repeat (case_match; simplify_eq/=); reflexivity.
Qed.

Lemma save_run (n : notification) (w : world) :
  saveNotificationToHistory n w = (Ok tt, snd (saveNotificationToHistory n w)).
Proof.
  rewrite <- (save_resolves n w). apply surjective_pairing.
Qed.

Lemma save_frame (n : notification) (w : world) :
  deliveries (snd (saveNotificationToHistory n w)) = deliveries w ∧
  calls (snd (saveNotificationToHistory n w)) = calls w.
Proof.
  run_service. repeat (case_match; simplify_eq/=); split; reflexivity.
Qed.

(** A call that reads an array (or nothing) and whose two storage calls
    are answered writes the new record in front, cut to 50 elements. *)
Lemma save_written (n : notification) (w : world) (items : list value) :
  storage_faults w 0 = None → storage_faults w 1 = None →
  persisted w = Some items →
  saveNotificationToHistory n w =
    (Ok tt,
     {| storage :=
          <[historyKey := JsonText (VArr (json_elem <$>
              take 50 (notificationItem n (JsDate.iso_string (clock w 0)) :: items)))]>
            (storage w);
        storage_faults := later (later (storage_faults w));
        deliveries := deliveries w;
        clock := later (clock w);
        calls := calls w;
        console := console w |}).
Proof.
  unfold persisted. intros H0 H1 Hp. run_service. rewrite H0.
  repeat (case_match; simplify_eq/=); rewrite ?H1; reflexivity.
Qed.

(** In every other case the call leaves the storage as it was. *)
Lemma save_unchanged (n : notification) (w : world) :
  is_Some (storage_faults w 0) ∨ is_Some (storage_faults w 1) ∨ persisted w = None →
  storage (snd (saveNotificationToHistory n w)) = storage w.
Proof.
  unfold persisted. intros [[e He] | [[e He] | Hp]]; run_service.
  - rewrite He. reflexivity.
  - repeat (case_match; simplify_eq/=); reflexivity.
  - repeat (case_match; simplify_eq/=); reflexivity.
Qed.

Lemma get_history_result (w : world) :
  fst (getNotificationHistory w) =
    match storage_faults w 0, storage w !! historyKey with
    | None, Some (JsonText v) => Ok v
    | _, _ => Ok (VArr [])
    end.
Proof.
  run_service. repeat (case_match; simplify_eq/=); reflexivity.
Qed.

Lemma clear_result (w : world) :
  fst (clearNotificationHistory w) = Ok tt ∧
  storage (snd (clearNotificationHistory w)) =
    match storage_faults w 0 with
    | None => delete historyKey (storage w)
    | Some _ => storage w
    end.
Proof.
  run_service. repeat (case_match; simplify_eq/=); split; reflexivity.
Qed.

Lemma persisted_read (w : world) (items : list value) :
  storage_faults w 0 = None → persisted w = Some items →
  fst (getNotificationHistory w) = Ok (VArr items).
Proof.
  intros H0 Hp. rewrite get_history_result, H0. unfold persisted in Hp.
  repeat (case_match; simplify_eq/=); reflexivity.
Qed.

(** A delivered notification in front of the history, when the storage
    answers. *)
Lemma written_then_read (n : notification) (w : world) (items : list value) (l : log_entry) :
  reliable w → persisted w = Some items →
  fst (getNotificationHistory (logged l (snd (saveNotificationToHistory n w)))) =
    Ok (VArr (json_elem (notificationItem n (JsDate.iso_string (clock w 0)))
              :: take 49 (json_elem <$> items))).
Proof.
  intros Hrel Hp. rewrite (save_written n w items (Hrel 0) (Hrel 1) Hp).
  rewrite get_history_result. cbn [snd logged storage storage_faults].
  unfold later. rewrite (Hrel 2), lookup_insert_eq, fmap_take. reflexivity.
Qed.


Lemma take_app_take {A : Type} (n : nat) (a b : list A) :
  take n (a ++ take n b) = take n (a ++ b).
Proof.
  rewrite !take_app. f_equal. rewrite take_take. f_equal. lia.
Qed.

Lemma push_all (items new : list value) :
  new ≠ [] →
  foldl push items new = take 50 (reverse (json_elem <$> new) ++ (json_elem <$> items)).
Proof.
  revert items. induction new as [| i new IH]; intros items Hne; [ done |].
  cbn [foldl]. destruct new as [| i' new'].
  - cbn [foldl]. unfold push. rewrite fmap_take. reflexivity.
  - rewrite IH by done. unfold push.
    rewrite !fmap_take.
    rewrite json_elem_twice, take_app_take.
    rewrite !(fmap_cons json_elem i).
    rewrite reverse_cons, <- app_assoc. reflexivity.
Qed.

Lemma append_all_written (ns : list notification) :
  ∀ (w : world) (items : list value),
    reliable w → persisted w = Some items →
    fst (append_all ns w) = Ok tt ∧
    reliable (snd (append_all ns w)) ∧
    persisted (snd (append_all ns w)) =
      Some (foldl push items (items_from (clock w) ns)).
Proof.
  induction ns as [| n ns IH]; intros w items Hrel Hp; simpl; [ done |].
  unfold bind at 1 2 3.
  rewrite (save_written n w items (Hrel 0) (Hrel 1) Hp).
  apply IH.
  - intros i. simpl. apply (Hrel (S (S i))).
  - unfold persisted. simpl. rewrite lookup_insert_eq. reflexivity.
Qed.

Lemma items_from_length (ns : list notification) :
  ∀ c, length (items_from c ns) = length ns.
Proof. induction ns as [| n ns IH]; intros c; simpl; [ done | by rewrite IH ]. Qed.

Lemma items_from_lookup (ns : list notification) :
  ∀ c i, items_from c ns !! i =
         (fun n => notificationItem n (JsDate.iso_string (c i))) <$> ns !! i.
Proof.
  induction ns as [| n ns IH]; intros c i; [ done |].
  destruct i as [| i]; simpl; [ done |]. exact (IH (later c) i).
Qed.

(** ** History records *)

Lemma record_json (n : notification) (ts : string) (k : string) :
  record_prop (json_elem (notificationItem n ts)) k =
    record_prop (notificationItem n ts) k ≫= toJSON.
Proof. unfold notificationItem, json_elem. simpl. apply lookup_omap. Qed.

Lemma record_props (n : notification) (ts : string) :
  let r := json_elem (notificationItem n ts) in
  record_prop r "id" = Some (VStr (id n)) ∧
  record_prop r "title" = Some (VStr (title n)) ∧
  record_prop r "body" = Some (VStr (body n)) ∧
  record_prop r "receivedAt" = Some (VStr ts) ∧
  record_prop r "shleduledAt" = Some (VStr (default "" (scheduledAt n))) ∧
  record_prop r "scheduledAt" = None.
Proof.
  intros r. unfold r. rewrite !record_json.
  unfold notificationItem, record_prop, literal. cbn [foldl fst snd].
  repeat split; simplify_map_eq; try done.
  destruct (scheduledAt n) as [s |]; [| done ].
  unfold or_else. simpl. destruct s; done.
Qed.

(** The stored [data] of a record whose [data] has the four properties
    the store copies. *)
Lemma record_data_json (n : notification) (ts : string) :
  is_Some (data n !! "title") → is_Some (data n !! "body") →
  is_Some (data n !! "price") → is_Some (data n !! "quantity") →
  record_data (json_elem (notificationItem n ts)) = Some (omap toJSON (data n)).
Proof.
  intros [t Ht] [b Hb] [p Hp] [q Hq].
  unfold notificationItem, json_elem, record_data. simpl.
  rewrite lookup_omap.
  rewrite lookup_insert_ne, lookup_insert_ne, lookup_insert_eq by done.
  simpl. do 2 f_equal.
  unfold get. rewrite Ht, Hb, Hp, Hq. simpl.
  rewrite !insert_id; try done; simplify_map_eq; done.
Qed.

Lemma local_data_lookup (t b : string) (d : option object) :
  local_data t b d !! "title" = Some (VStr t) ∧
  local_data t b d !! "body" = Some (VStr b) ∧
  local_data t b d !! "price" = Some (or_else (get (default ∅ d) "price") (VNum 0)) ∧
  local_data t b d !! "quantity" = Some (or_else (get (default ∅ d) "quantity") (VNum 0)) ∧
  ∀ k, k ∉ ["title"; "body"; "price"; "quantity"] →
       local_data t b d !! k = default ∅ d !! k.
Proof.
  unfold local_data, literal. cbn [foldl fst snd].
  repeat split; simplify_map_eq; try done.
  intros k Hk. rewrite !lookup_insert_ne; [ done | | | | ];
    intros <-; apply Hk; set_solver.
Qed.

Lemma scheduled_data_lookup (t b : string) (d : option object) :
  scheduled_data t b d !! "title" = Some (VStr t) ∧
  scheduled_data t b d !! "body" = Some (VStr b) ∧
  scheduled_data t b d !! "price" = Some (or_else (get (default ∅ d) "price") (VNum 0)) ∧
  scheduled_data t b d !! "quantity" = Some (or_else (get (default ∅ d) "quantity") (VNum 0)) ∧
  ∀ k, k ∉ ["title"; "body"; "price"; "quantity"] → scheduled_data t b d !! k = None.
Proof.
  unfold scheduled_data, literal. cbn [foldl fst snd].
  repeat split; simplify_map_eq; try done.
  intros k Hk. rewrite !lookup_insert_ne; [ done | | | | ];
    intros <-; apply Hk; set_solver.
Qed.

Lemma stored_local_data (id t b : string) (d : option object) (ts : string) :
  record_data (json_elem (notificationItem (local_record id t b d) ts)) =
    Some (omap toJSON (local_data t b d)).
Proof.
  destruct (local_data_lookup t b d) as (Ht & Hb & Hp & Hq & _).
  apply record_data_json; simpl; eauto.
Qed.

Lemma stored_scheduled_data (id t b : string) (d : option object) (at_ ts : string) :
  record_data (json_elem (notificationItem (scheduled_record id t b d at_) ts)) =
    Some (omap toJSON (scheduled_data t b d)).
Proof.
  destruct (scheduled_data_lookup t b d) as (Ht & Hb & Hp & Hq & _).
  apply record_data_json; simpl; eauto.
Qed.

Lemma stored_price_quantity (o : object) (d : object) :
  o !! "price" = Some (or_else (get d "price") (VNum 0)) →
  o !! "quantity" = Some (or_else (get d "quantity") (VNum 0)) →
  ∃ price quantity,
    omap toJSON o !! "price" = Some price ∧ price ≠ VUndefined ∧
    omap toJSON o !! "quantity" = Some quantity ∧ quantity ≠ VUndefined ∧
    (get d "price" = VUndefined → price = VNum 0) ∧
    (get d "quantity" = VUndefined → quantity = VNum 0).
Proof.
  intros Hp Hq.
  exists (json_elem (or_else (get d "price") (VNum 0))),
         (json_elem (or_else (get d "quantity") (VNum 0))).
  rewrite !lookup_omap, Hp, Hq. simpl.
  destruct (json_elem_defined _ (or_else_defined (get d "price"))) as [-> ?].
  destruct (json_elem_defined _ (or_else_defined (get d "quantity"))) as [-> ?].
  repeat split; try done; intros ->; reflexivity.
Qed.

(** ** The dispatcher *)

Lemma send_local_run (t b : string) (d : option object) (w : world) :
  sendLocalNotification t b d w =
    let w1 := Notifications.asked (local_request t b d) w in
    match deliveries w 0 with
    | inl e => (Throw e, logged (Error "Error sending local notification:" e) w1)
    | inr id =>
        (Ok id,
         logged (Log "Local notification sent:" id)
           (snd (saveNotificationToHistory (local_record id t b d) w1)))
    end.
Proof.
  unfold sendLocalNotification, try_catch, bind at 1,
    Notifications.scheduleNotificationAsync.
  fold (local_data t b d). fold (local_request t b d).
  destruct (deliveries w 0) as [e | id]; [ reflexivity |].
  unfold bind at 1. fold (local_record id t b d). rewrite save_run.
  reflexivity.
Qed.

Lemma schedule_run (t b : string) (d : option object) (s : option float) (w : world) :
  scheduleNotification t b d s w =
    match scheduled_time (clock w 0) s with
    | None =>
        (Throw RangeError,
         logged (Error "Error scheduling notification:" RangeError) (Date.ticked w))
    | Some time =>
        let w1 := Notifications.asked (scheduled_request t b d s) (Date.ticked w) in
        match deliveries w 0 with
        | inl e => (Throw e, logged (Error "Error scheduling notification:" e) w1)
        | inr id =>
            (Ok id,
             logged (Log "Notification scheduled:" id)
               (snd (saveNotificationToHistory
                       (scheduled_record id t b d (JsDate.iso_string time)) w1)))
        end
    end.
Proof.
  unfold scheduleNotification, try_catch, bind at 1, Date.now.
  fold (scheduled_data t b d). fold (scheduled_time (clock w 0) s).
  unfold bind at 1.
  destruct (scheduled_time (clock w 0) s) as [time |]; [| reflexivity ].
  unfold Date.toISOString, ret, bind at 1,
    Notifications.scheduleNotificationAsync.
  fold (scheduled_request t b d s).
  change (deliveries (Date.ticked w) 0) with (deliveries w 0).
  destruct (deliveries w 0) as [e | id]; [ reflexivity |].
  unfold bind at 1.
  fold (scheduled_record id t b d (JsDate.iso_string time)). rewrite save_run.
  reflexivity.
Qed.

Lemma cons_self {A : Type} (x : A) (l : list A) : l ≠ x :: l.
Proof.
  intros H. apply (f_equal length) in H. simpl in H. lia.
Qed.

Ltac enter_service w :=
  unfold run, sendBookingConfirmationNotification,
    sendPaymentConfirmationNotification, sendOrderConfirmationNotification,
    sendOrderReadyNotification, sendSpecialOfferNotification;
  unfold Date.current, Date.toISOString; unfold Date.now;
  unfold bind, ret; cbv beta iota;
  rewrite ?send_local_run, ?schedule_run;
  cbv beta iota zeta;
  change (deliveries (Date.ticked w)) with (deliveries w) in *.

Lemma send_local_persisted (t b : string) (d : option object) (w : world)
  (id : string) (items : list value) :
  deliveries w 0 = inr id → reliable w → persisted w = Some items →
  fst (sendLocalNotification t b d w) = Ok id ∧
  calls (snd (sendLocalNotification t b d w)) = (local_request t b d, inr id) :: calls w ∧
  fst (getNotificationHistory (snd (sendLocalNotification t b d w))) =
    Ok (VArr (json_elem (notificationItem (local_record id t b d)
                           (JsDate.iso_string (clock w 0)))
              :: take 49 (json_elem <$> items))).
Proof.
  intros Hd Hrel Hp. rewrite send_local_run, Hd. cbv zeta. cbn [fst snd].
  split; [ reflexivity |]. split.
  - cbn [logged calls]. rewrite (proj2 (save_frame _ _)).
    cbn [calls Notifications.asked]. rewrite Hd. reflexivity.
  - exact (written_then_read _ (Notifications.asked _ w) items _ Hrel Hp).
Qed.

Lemma schedule_persisted (t b : string) (d : option object) (s : option float)
  (w : world) (id : string) (items : list value) (time : Z) :
  scheduled_time (clock w 0) s = Some time →
  deliveries w 0 = inr id → reliable w → persisted w = Some items →
  fst (scheduleNotification t b d s w) = Ok id ∧
  calls (snd (scheduleNotification t b d s w)) =
    (scheduled_request t b d s, inr id) :: calls w ∧
  fst (getNotificationHistory (snd (scheduleNotification t b d s w))) =
    Ok (VArr (json_elem (notificationItem
                           (scheduled_record id t b d (JsDate.iso_string time))
                           (JsDate.iso_string (clock w 1)))
              :: take 49 (json_elem <$> items))).
Proof.
  intros Ht Hd Hrel Hp. rewrite schedule_run, Ht, Hd. cbv zeta. cbn [fst snd].
  split; [ reflexivity |]. split.
  - cbn [logged calls]. rewrite (proj2 (save_frame _ _)).
    cbn [calls deliveries Notifications.asked Date.ticked]. rewrite Hd. reflexivity.
  - exact (written_then_read _ (Notifications.asked _ (Date.ticked w)) items _
             (fun i => Hrel i) Hp).
Qed.

(** Every operation but [scheduleNotification] is a call of
    [sendLocalNotification], after at most a reading of the clock. *)
Lemma run_shape (op : operation) (w : world) :
  (∃ t b d s, op = Scheduled t b d s) ∨
  (∃ t b d w0, run op w = sendLocalNotification t b d w0 ∧
               (w0 = w ∨ w0 = Date.ticked w) ∧
               (∀ t' b' d', op = Local t' b' d' → d' = d) ∧
               (∀ t' b' d' s', op ≠ Scheduled t' b' d' s')).
Proof.
  destruct op; [ right | right | left | right | right | right | right ];
    try (eexists _, _, _, _; split; [ reflexivity |];
         split; [ auto |]; split; intros; by simplify_eq);
    eauto.
Qed.

Lemma delivery_accepted (op : operation) (w : world) (id : string) :
  delivery op w (inr id) →
  deliveries w 0 = inr id ∧
  ∀ t b d s, op = Scheduled t b d s → is_Some (scheduled_time (clock w 0) s).
Proof.
  unfold delivery. intros [req Hcalls]. revert Hcalls.
  destruct op; enter_service w.
  all: try destruct (scheduled_time _ _) eqn:Ht.
  all: destruct (deliveries w 0) as [e0 | id0] eqn:Hd;
    cbn [fst snd calls logged Notifications.asked Date.ticked storage storage_faults].
  all: rewrite ?(proj2 (save_frame _ _));
    cbn [calls deliveries Notifications.asked Date.ticked]; rewrite ?Hd.
  all: intros Hcalls; simplify_eq; try (exfalso; eapply cons_self; eassumption).
  all: split; [ reflexivity |]; intros; simplify_eq; eauto.
  all: rewrite Ht; eauto.
Qed.

Lemma sent_body_local (t b : string) (d : option object) (w : world) :
  match calls (snd (sendLocalNotification t b d w)) with
  | (req, _) :: _ => Some (content_body (request_content req))
  | [] => None
  end = Some b.
Proof.
  rewrite send_local_run. cbv zeta.
  destruct (deliveries w 0); cbn [snd logged calls];
    rewrite ?(proj2 (save_frame _ _)); reflexivity.
Qed.

(** ** Every operation, in one form *)

Lemma run_cases (op : operation) (w : world) :
  (∃ t b d s, op = Scheduled t b d s ∧ scheduled_time (clock w 0) s = None ∧
     run op w = (Throw RangeError,
                 logged (Error (failure_line op) RangeError) (Date.ticked w)))
  ∨
  (∃ t b d at_,
     let req := {| request_content := alert t b d;
                   trigger := match op with
                              | Scheduled _ _ _ s => Some (default 60%float s)
                              | _ => None
                              end |} in
     let w1 := Notifications.asked req (before_request op w) in
     (∀ t' b' d' s, op = Scheduled t' b' d' s →
        ∃ time, scheduled_time (clock w 0) s = Some time ∧
                at_ = Some (JsDate.iso_string time)) ∧
     ((∀ t' b' d' s, op ≠ Scheduled t' b' d' s) → at_ = None) ∧
     run op w =
       match deliveries w 0 with
       | inl e => (Throw e, logged (Error (failure_line op) e) w1)
       | inr id =>
           (Ok id,
            logged (Log (success_line op) id)
              (snd (saveNotificationToHistory (mirrored id (alert t b d) at_) w1)))
       end).
Proof.
  destruct op as [bd | t b d | t b d s | pd | od | od | sd].
  3: { simpl run. rewrite schedule_run.
       destruct (scheduled_time (clock w 0) s) as [time |] eqn:Ht.
       - right. eexists t, b, (scheduled_data t b d), (Some (JsDate.iso_string time)).
         cbv zeta. split; [| split ].
         + intros t' b' d' s' Heq. simplify_eq. eauto.
         + intros Hnot. destruct (Hnot t b d s eq_refl).
         + reflexivity.
       - left. eauto 10. }
  all: right; enter_service w; cbv zeta.
  all: eexists _, _, _, None; split; [ intros; simplify_eq | split; [ reflexivity |] ].
  all: reflexivity.
Qed.

(** ** The store, case by case *)

(** What a failed append leaves: the storage as it was and one line on the
    console, with the error met. *)
Lemma save_failed (n : notification) (w : world) (e : error) :
  storage_faults w 0 = Some e ∨
  (storage_faults w 0 = None ∧ storage w !! historyKey = Some Malformed ∧ e = SyntaxError) ∨
  (storage_faults w 0 = None ∧ persisted w = None ∧
   storage w !! historyKey ≠ Some Malformed ∧ e = TypeError) ∨
  (storage_faults w 0 = None ∧ is_Some (persisted w) ∧ storage_faults w 1 = Some e) →
  storage (snd (saveNotificationToHistory n w)) = storage w ∧
  console (snd (saveNotificationToHistory n w)) =
    Error "Error saving notification to history:" e :: console w.
Proof.
  unfold persisted.
  intros [H0 | [(H0 & Hbad & ->) | [(H0 & Hp & Hbad & ->) | (H0 & [items Hp] & H1)]]];
    run_service; rewrite H0; try rewrite Hbad;
    repeat (case_match; simplify_eq/=); rewrite ?H1; split; reflexivity.
Qed.

Lemma save_console_written (n : notification) (w : world) (items : list value) :
  storage_faults w 0 = None → storage_faults w 1 = None →
  persisted w = Some items →
  console (snd (saveNotificationToHistory n w)) = console w.
Proof.
  intros H0 H1 Hp. rewrite (save_written n w items H0 H1 Hp). reflexivity.
Qed.

(** The store either keeps the storage or replaces the history. *)
Lemma save_storage (n : notification) (w : world) :
  storage (snd (saveNotificationToHistory n w)) = storage w ∨
  ∃ items,
    persisted w = Some items ∧
    storage (snd (saveNotificationToHistory n w)) =
      <[historyKey := JsonText (VArr (push items
           (notificationItem n (JsDate.iso_string (clock w 0)))))]> (storage w).
Proof.
  destruct (storage_faults w 0) as [e |] eqn:H0;
    [ left; apply save_unchanged; left; eauto |].
  destruct (storage_faults w 1) as [e |] eqn:H1;
    [ left; apply save_unchanged; right; left; eauto |].
  destruct (persisted w) as [items |] eqn:Hp;
    [| left; apply save_unchanged; right; right; done ].
  right. exists items. split; [ reflexivity |].
  rewrite (save_written n w items H0 H1 Hp). reflexivity.
Qed.

(** The stored [data] is the caller's [data] as JSON keeps it: setting the
    four properties again from [data] itself changes nothing. *)
Lemma record_data_copied (n : notification) (ts : string) :
  record_data (json_elem (notificationItem n ts)) = Some (omap toJSON (data n)).
Proof.
  unfold notificationItem, json_elem, record_data. simpl.
  rewrite lookup_omap.
  rewrite lookup_insert_ne, lookup_insert_ne, lookup_insert_eq by done.
  simpl. f_equal. apply map_eq. intros k.
  rewrite !lookup_omap. unfold literal. cbn [foldl fst snd].
  assert (Hget : ∀ j, Some (get (data n) j) ≫= toJSON = data n !! j ≫= toJSON).
  { intros j. unfold get. destruct (data n !! j); reflexivity. }
  destruct (decide (k = "quantity")) as [-> |];
    [ rewrite lookup_insert_eq; apply Hget | rewrite lookup_insert_ne by done ].
  destruct (decide (k = "price")) as [-> |];
    [ rewrite lookup_insert_eq; apply Hget | rewrite lookup_insert_ne by done ].
  destruct (decide (k = "body")) as [-> |];
    [ rewrite lookup_insert_eq; apply Hget | rewrite lookup_insert_ne by done ].
  destruct (decide (k = "title")) as [-> |];
    [ rewrite lookup_insert_eq; apply Hget | rewrite lookup_insert_ne by done ].
  reflexivity.
Qed.

(** ** Every operation of the dispatcher *)

Lemma before_request_frame (op : operation) (w : world) :
  storage (before_request op w) = storage w ∧
  storage_faults (before_request op w) = storage_faults w ∧
  deliveries (before_request op w) = deliveries w ∧
  calls (before_request op w) = calls w ∧
  console (before_request op w) = console w.
Proof. destruct op; repeat split; reflexivity. Qed.

(** An accepted delivery is the case of [run_cases] in which the host
    answered with an identifier. *)
Lemma run_accepted (op : operation) (w : world) (id : string) :
  delivery op w (inr id) →
  ∃ t b d at_,
    let req := {| request_content := alert t b d;
                  trigger := match op with
                             | Scheduled _ _ _ s => Some (default 60%float s)
                             | _ => None
                             end |} in
    let w1 := Notifications.asked req (before_request op w) in
    deliveries w 0 = inr id ∧
    ((∀ t' b' d' s, op ≠ Scheduled t' b' d' s) → at_ = None) ∧
    (∀ t' b' d' s, op = Scheduled t' b' d' s →
       ∃ time, scheduled_time (clock w 0) s = Some time ∧
               at_ = Some (JsDate.iso_string time)) ∧
    run op w =
      (Ok id,
       logged (Log (success_line op) id)
         (snd (saveNotificationToHistory (mirrored id (alert t b d) at_) w1))).
Proof.
  intros [req Hcalls].
  destruct (run_cases op w)
    as [(t & b & d & s & -> & Ht & Hrun) | (t & b & d & at_ & Hs & Hn & Hrun)].
  - rewrite Hrun in Hcalls. cbn [snd logged calls Date.ticked] in Hcalls.
    destruct (cons_self _ _ Hcalls).
  - cbv zeta in Hrun. exists t, b, d, at_. cbv zeta.
    destruct (before_request_frame op w) as (_ & _ & _ & Hc & _).
    destruct (deliveries w 0) as [e | id'] eqn:Hd; rewrite Hrun in Hcalls |- *;
      cbn [snd logged calls Notifications.asked] in Hcalls;
      rewrite ?(proj2 (save_frame _ _)) in Hcalls;
      cbn [calls Notifications.asked] in Hcalls;
      rewrite Hc in Hcalls;
      destruct (before_request_frame op w) as (_ & _ & Hdel & _ & _);
      rewrite Hdel, Hd in Hcalls; simplify_eq.
    repeat split; assumption.
Qed.

Lemma run_rejected (op : operation) (w : world) (e : error) :
  delivery op w (inl e) →
  ∃ req,
    deliveries w 0 = inl e ∧
    run op w = (Throw e, logged (Error (failure_line op) e)
                           (Notifications.asked req (before_request op w))).
Proof.
  intros [req Hcalls].
  destruct (run_cases op w)
    as [(t & b & d & s & -> & Ht & Hrun) | (t & b & d & at_ & Hs & Hn & Hrun)].
  - rewrite Hrun in Hcalls. cbn [snd logged calls Date.ticked] in Hcalls.
    destruct (cons_self _ _ Hcalls).
  - cbv zeta in Hrun. eexists.
    destruct (before_request_frame op w) as (_ & _ & Hdel & Hc & _).
    destruct (deliveries w 0) as [e' | id'] eqn:Hd; rewrite Hrun in Hcalls |- *;
      cbn [snd logged calls Notifications.asked] in Hcalls;
      rewrite ?(proj2 (save_frame _ _)) in Hcalls;
      cbn [calls Notifications.asked] in Hcalls;
      rewrite Hc, Hdel, Hd in Hcalls; simplify_eq.
    split; reflexivity.
Qed.

(** ** The shape of the history *)

Lemma is_record_stored (n : notification) (ts : string) :
  is_record (json_elem (notificationItem n ts)) = true.
Proof.
  destruct (record_props n ts) as (H1 & H2 & H3 & H4 & H5 & _).
  pose proof (record_data_copied n ts) as H6.
  unfold record_prop, record_data in *.
  destruct (json_elem (notificationItem n ts)) as [| | | | | | props] eqn:Hr;
    try discriminate.
  unfold is_record. rewrite H1, H2, H3, H4, H5. simpl.
  destruct (props !! "data") as [[| | | | | | d] |]; try discriminate. simpl.
  apply bool_decide_eq_true.
  unfold notificationItem, json_elem in Hr. simpl in Hr. simplify_eq.
  etransitivity; [ apply dom_omap_subseteq |].
  unfold literal. cbn [foldl fst snd]. rewrite !dom_insert_L, dom_empty_L.
  unfold record_keys. set_solver.
Qed.

Lemma is_record_json (r : value) : is_record r = true → is_record (json_elem r) = true.
Proof.
  destruct r as [| | | | | | props]; try discriminate.
  unfold json_elem. simpl. intros Hr.
  repeat (apply andb_true_iff in Hr as [Hr ?]).
  rewrite !lookup_omap.
  repeat match goal with
         | H : is_text (?m !! ?k) = true |- _ =>
             destruct (m !! k) as [[| | | | | | ?] |]; try discriminate H; clear H
         | H : match ?m !! ?k with _ => _ end = true |- _ =>
             destruct (m !! k) as [[| | | | | | ?] |]; try discriminate H; clear H
         end.
  simpl. apply bool_decide_eq_true.
  match goal with H : bool_decide _ = true |- _ => apply bool_decide_eq_true in H end.
  etransitivity; [ apply dom_omap_subseteq | eassumption ].
Qed.

Lemma well_formed_storage (w1 w2 : world) :
  storage w2 = storage w1 → well_formed w1 → well_formed w2.
Proof.
  unfold well_formed, persisted. intros ->. done.
Qed.

Lemma well_formed_push (w : world) (items : list value) (n : notification) (ts : string) :
  persisted w = Some items → well_formed w →
  length (push items (notificationItem n ts)) ≤ 50 ∧
  Forall (fun r => is_record r = true) (push items (notificationItem n ts)).
Proof.
  intros Hp (items' & Hp' & Hlen & Hall). rewrite Hp in Hp'. simplify_eq.
  unfold push. split.
  - rewrite length_fmap, length_take. lia.
  - rewrite fmap_take. apply Forall_take. rewrite fmap_cons.
    constructor; [ apply is_record_stored |].
    apply Forall_fmap. eapply Forall_impl; [ exact Hall |].
    intros r Hr. apply is_record_json, Hr.
Qed.

Lemma save_well_formed (n : notification) (w : world) :
  well_formed w → well_formed (snd (saveNotificationToHistory n w)).
Proof.
  intros Hw. destruct (save_storage n w) as [Hsame | (items & Hp & Hst)].
  - exact (well_formed_storage _ _ Hsame Hw).
  - destruct (well_formed_push w items n (JsDate.iso_string (clock w 0)) Hp Hw)
      as [Hlen Hall].
    eexists. split; [| split; [ exact Hlen | exact Hall ] ].
    unfold persisted. rewrite Hst, lookup_insert_eq. reflexivity.
Qed.

Lemma run_well_formed (op : operation) (w : world) :
  well_formed w → well_formed (snd (run op w)).
Proof.
  intros Hw.
  destruct (before_request_frame op w) as (Hst & _).
  destruct (run_cases op w)
    as [(t & b & d & s & -> & Ht & Hrun) | (t & b & d & at_ & Hs & Hn & Hrun)].
  - rewrite Hrun. exact (well_formed_storage w _ eq_refl Hw).
  - cbv zeta in Hrun. rewrite Hrun.
    destruct (deliveries w 0) as [e | id]; cbn [snd].
    + apply (well_formed_storage w); [ exact Hst | exact Hw ].
    + match goal with
      | |- well_formed (logged _ (snd (saveNotificationToHistory ?n ?w1))) =>
          apply (well_formed_storage (snd (saveNotificationToHistory n w1)));
            [ reflexivity | apply save_well_formed ]
      end.
      apply (well_formed_storage w); [ exact Hst | exact Hw ].
Qed.

Lemma get_storage (w : world) : storage (snd (getNotificationHistory w)) = storage w.
Proof. run_service. repeat (case_match; simplify_eq/=); reflexivity. Qed.

Lemma payload_run (d : pushOrderDetails) (w : world) :
  ∃ v, getServerNotificationPayload d w = (Ok v, Date.ticked w).
Proof. eexists. reflexivity. Qed.

Lemma exec_well_formed (c : command) (w : world) :
  well_formed w → well_formed (exec w c).
Proof.
  intros Hw. destruct c as [op | n | | | d]; cbn [exec].
  - apply run_well_formed, Hw.
  - apply save_well_formed, Hw.
  - exact (well_formed_storage _ _ (get_storage w) Hw).
  - pose proof (proj2 (clear_result w)) as Hst.
    destruct (storage_faults w 0); [ exact (well_formed_storage _ _ Hst Hw) |].
    exists []. split; [| split; [ simpl; lia | constructor ] ].
    unfold persisted. rewrite Hst, lookup_delete_eq. reflexivity.
  - destruct (payload_run d w) as [v ->]. exact (well_formed_storage w _ eq_refl Hw).
Qed.

(** ** Appends that overlap *)

Lemma get_item_answered (k : string) (w : world) :
  storage_faults w 0 = None →
  AsyncStorage.getItem k w = (Ok (storage w !! k), AsyncStorage.answered w (storage w)).
Proof.
  intros H0. unfold AsyncStorage.getItem, AsyncStorage.call. rewrite H0. reflexivity.
Qed.

(** A call that has read the history of [w0] and goes on in [w]. *)
Lemma after_read_written (n : notification) (w w0 : world) (items : list value) :
  persisted w0 = Some items → storage_faults w 0 = None →
  save_after_read n (Ok (storage w0 !! historyKey)) w =
    (Ok tt,
     {| storage :=
          <[historyKey := JsonText (VArr (push items
              (notificationItem n (JsDate.iso_string (clock w 0)))))]> (storage w);
        storage_faults := later (storage_faults w);
        deliveries := deliveries w;
        clock := later (clock w);
        calls := calls w;
        console := console w |}).
Proof.
  unfold persisted, save_after_read. intros Hp H0. run_service.
  repeat (case_match; simplify_eq/=); rewrite ?H0 in *; simplify_eq; reflexivity.
Qed.

Lemma save_in_two_steps (n : notification) (w : world) :
  saveNotificationToHistory n w =
    let '(r, w1) := AsyncStorage.getItem historyKey w in save_after_read n r w1.
Proof.
  unfold save_after_read. run_service.
  repeat (case_match; simplify_eq/=); reflexivity.
Qed.

Lemma overlapped_written (x y : notification) (w : world) (items : list value) :
  reliable w → persisted w = Some items →
  fst (overlapped x y w) = Ok tt ∧
  persisted (snd (overlapped x y w)) =
    Some (json_elem (notificationItem y (JsDate.iso_string (clock w 1)))
          :: take 49 (json_elem <$> items)).
Proof.
  intros Hrel Hp. unfold overlapped.
  rewrite (get_item_answered historyKey w (Hrel 0)).
  rewrite (get_item_answered historyKey (AsyncStorage.answered w (storage w)) (Hrel 1)).
  cbn [storage AsyncStorage.answered].
  match goal with
  | |- context [save_after_read x _ ?w2] =>
      rewrite (after_read_written x w2 w items Hp (Hrel 2))
  end.
  match goal with
  | |- context [save_after_read y _ ?w3] =>
      rewrite (after_read_written y w3 w items Hp (Hrel 3))
  end.
  split; [ reflexivity |].
  unfold persisted. cbn [snd storage clock later AsyncStorage.answered].
  rewrite lookup_insert_eq. unfold push. rewrite fmap_take. reflexivity.
Qed.

(** ** The notification screen *)

Lemma get_history_run (w : world) :
  ∃ v, getNotificationHistory w = (Ok v, snd (getNotificationHistory w)).
Proof.
  pose proof (get_history_result w) as Hres.
  destruct (getNotificationHistory w) as [r w1]. cbn [fst snd] in *.
  repeat case_match; simplify_eq; eauto.
Qed.

Lemma fetch_run (s : screen) (w : world) :
  ∃ v, fst (getNotificationHistory w) = Ok v ∧
       fetchNotification s w =
         (Ok (setNotifications v s), snd (getNotificationHistory w)).
Proof.
  destruct (get_history_run w) as [v Hrun]. exists v.
  unfold fetchNotification, try_catch, bind, ret. rewrite Hrun. split; reflexivity.
Qed.

Lemma clear_run (w : world) :
  clearNotificationHistory w = (Ok tt, snd (clearNotificationHistory w)).
Proof.
  rewrite <- (proj1 (clear_result w)). apply surjective_pairing.
Qed.

(** ** A history that is not a list *)

Lemma exec_keeps_corrupt (c : command) (w : world) :
  persisted w = None → c ≠ ClearHistory → storage (exec w c) = storage w.
Proof.
  intros Hp Hc.
  assert (Hsave : ∀ n w', storage w' = storage w →
            storage (snd (saveNotificationToHistory n w')) = storage w).
  { intros n w' Hst. rewrite save_unchanged; [ exact Hst |].
    right; right. unfold persisted in *. rewrite Hst. exact Hp. }
  destruct c as [op | n | | | d]; cbn [exec]; [ | | | done | ].
  - destruct (before_request_frame op w) as (Hst & _).
    destruct (run_cases op w)
      as [(t & b & d & s & -> & Ht & Hrun) | (t & b & d & at_ & Hs & Hn & Hrun)].
    + rewrite Hrun. reflexivity.
    + cbv zeta in Hrun. rewrite Hrun.
      destruct (deliveries w 0) as [e | id]; cbn [snd logged storage];
        [ exact Hst | apply Hsave, Hst ].
  - apply Hsave. reflexivity.
  - apply get_storage.
  - destruct (payload_run d w) as [v ->]. reflexivity.
Qed.

(** * The claims *)

(** C1. Capacity of the history store.
    (1) When the storage answers and holds an array (of any length) or
    nothing, an append leaves the new record followed by the previous
    elements, cut to the first 50: the list read back afterwards has
    [min 50 (1 + previous length)] elements, so at most 50, and what is
    dropped is dropped from the tail, oldest first.
    (2) In every world, whatever is stored and whichever storage call
    fails, an append either leaves a history of at most 50 elements or
    leaves the storage untouched; hence a history of at most 50 elements
    is still one after an append.
    (3) After 51 appends in a row onto an empty store, the list read back
    has 50 elements and its last element is the record of the second
    call: the record of the first call is gone. *)
Theorem history_capacity :
  (∀ (n : notification) (w : world) (items : list value),
     reliable w → persisted w = Some items →
     ∃ kept,
       fst (getNotificationHistory (snd (saveNotificationToHistory n w))) = Ok (VArr kept) ∧
       kept = json_elem <$>
                take 50 (notificationItem n (JsDate.iso_string (clock w 0)) :: items) ∧
       length kept = min 50 (S (length items)) ∧
       length kept ≤ 50) ∧
  (∀ (n : notification) (w : world),
     (history_length (snd (saveNotificationToHistory n w)) ≤ 50 ∨
      storage (snd (saveNotificationToHistory n w)) = storage w) ∧
     (history_length w ≤ 50 →
      history_length (snd (saveNotificationToHistory n w)) ≤ 50)) ∧
  (∀ (ns : list notification) (second : notification) (w : world),
     length ns = 51 → ns !! 1 = Some second →
     storage w !! historyKey = None → reliable w →
     ∃ kept,
       fst (getNotificationHistory (snd (append_all ns w))) = Ok (VArr kept) ∧
       length kept = 50 ∧
       last kept =
         Some (json_elem (notificationItem second (JsDate.iso_string (clock w 1))))).
Proof.
  split; [| split ].
  - intros n w items Hrel Hp. eexists. split; [| split; [ reflexivity |] ].
    + rewrite (save_written n w items (Hrel 0) (Hrel 1) Hp). simpl.
      apply persisted_read; [ apply (Hrel 2) |].
      unfold persisted. simpl. rewrite lookup_insert_eq. reflexivity.
    + rewrite length_fmap, length_take. simpl length. lia.
  - intros n w.
    assert (Hcases :
      history_length (snd (saveNotificationToHistory n w)) ≤ 50 ∨
      storage (snd (saveNotificationToHistory n w)) = storage w).
    { destruct (storage_faults w 0) as [e |] eqn:H0;
        [ right; apply save_unchanged; left; eauto |].
      destruct (storage_faults w 1) as [e |] eqn:H1;
        [ right; apply save_unchanged; right; left; eauto |].
      destruct (persisted w) as [items |] eqn:Hp;
        [| right; apply save_unchanged; right; right; done ].
      left. rewrite (save_written n w items H0 H1 Hp). unfold history_length.
      cbn [snd storage].
      rewrite lookup_insert_eq, length_fmap, length_take. lia. }
    split; [ exact Hcases |].
    intros Hlen. destruct Hcases as [Hcap | Hsame]; [ exact Hcap |].
    unfold history_length in *. rewrite Hsame. exact Hlen.
  - intros ns second w Hlen Hsnd Hempty Hrel.
    assert (Hp : persisted w = Some []) by (unfold persisted; rewrite Hempty; done).
    destruct (append_all_written ns w [] Hrel Hp) as (_ & Hrel' & Hp').
    rewrite push_all in Hp'
      by (intros Hnil; apply (f_equal length) in Hnil;
          rewrite items_from_length, Hlen in Hnil; done).
    rewrite app_nil_r, take_reverse, length_fmap, items_from_length, Hlen in Hp'.
    eexists. split; [ apply persisted_read; [ apply (Hrel' 0) | exact Hp' ] |].
    split.
    + rewrite length_reverse, length_drop, length_fmap, items_from_length, Hlen. done.
    + rewrite last_reverse, head_lookup, lookup_drop, list_lookup_fmap,
        items_from_lookup.
      change (51 - 50 + 0) with 1. rewrite Hsnd. reflexivity.
Qed.

Lemma history_capacity_witness :
  (∃ kept,
     fst (getNotificationHistory
            (snd (saveNotificationToHistory (sample 0) (quiet 0 (stocked 60))))) =
       Ok (VArr kept) ∧
     kept = json_elem <$>
              take 50 (notificationItem (sample 0) (JsDate.iso_string 0)
                       :: replicate 60 VNull) ∧
     length kept = min 50 (S (length (replicate 60 VNull))) ∧
     length kept ≤ 50) ∧
  history_length (snd (saveNotificationToHistory (sample 0) (quiet 0 (stocked 50)))) ≤ 50 ∧
  (∃ kept,
     fst (getNotificationHistory
            (snd (append_all (sample <$> seq 0 51) (quiet 0 ∅)))) = Ok (VArr kept) ∧
     length kept = 50 ∧
     last kept = Some (json_elem (notificationItem (sample 1) (JsDate.iso_string 1)))).
Proof.
  split; [| split ].
  - apply (proj1 history_capacity (sample 0) (quiet 0 (stocked 60)) (replicate 60 VNull)).
    + intros i. reflexivity.
    + reflexivity.
  - apply (proj2 (proj1 (proj2 history_capacity) (sample 0) (quiet 0 (stocked 50)))).
    vm_compute. lia.
  - apply (proj2 (proj2 history_capacity) (sample <$> seq 0 51) (sample 1) (quiet 0 ∅)).
    + reflexivity.
    + reflexivity.
    + reflexivity.
    + intros i. reflexivity.
Defined.

(** C2. Newest first. When the storage answers and holds the array
    [items] (or nothing), an append puts the new record at position 0;
    after appending [a] and then [b] the list read back starts with the
    record of [b], then the record of [a], then the previous contents
    (as far as the cap of 50 leaves room). *)
Theorem newest_first (a b : notification) (w : world) (items : list value) :
  reliable w → persisted w = Some items →
  let item_a := notificationItem a (JsDate.iso_string (clock w 0)) in
  let item_b := notificationItem b (JsDate.iso_string (clock w 1)) in
  let w1 := snd (saveNotificationToHistory a w) in
  let w2 := snd (saveNotificationToHistory b w1) in
  fst (getNotificationHistory w1) =
    Ok (VArr (json_elem item_a :: take 49 (json_elem <$> items))) ∧
  fst (getNotificationHistory w2) =
    Ok (VArr (json_elem item_b :: json_elem item_a :: take 48 (json_elem <$> items))).
Proof.
  intros Hrel Hp item_a item_b w1 w2.
  pose proof (f_equal snd (save_written a w items (Hrel 0) (Hrel 1) Hp)) as Hw1.
  cbn [snd] in Hw1. fold w1 item_a in Hw1.
  assert (Hp1 : persisted w1 = Some (push items item_a)).
  { unfold persisted. rewrite Hw1. cbn [storage].
    rewrite lookup_insert_eq. reflexivity. }
  assert (Hrel1 : reliable w1).
  { intros i. rewrite Hw1. apply (Hrel (S (S i))). }
  assert (Hc1 : clock w1 0 = clock w 1) by (rewrite Hw1; reflexivity).
  split.
  - rewrite (persisted_read w1 _ (Hrel1 0) Hp1). unfold push.
    rewrite fmap_take. reflexivity.
  - assert (Hp2 : persisted w2 = Some (push (push items item_a) item_b)).
    { unfold w2. rewrite (save_written b w1 _ (Hrel1 0) (Hrel1 1) Hp1).
      unfold persisted. cbn [snd storage]. rewrite lookup_insert_eq, Hc1. reflexivity. }
    assert (Hrel2 : storage_faults w2 0 = None).
    { unfold w2. rewrite (save_written b w1 _ (Hrel1 0) (Hrel1 1) Hp1).
      apply (Hrel1 2). }
    rewrite (persisted_read w2 _ Hrel2 Hp2).
    change (push (push items item_a) item_b) with (foldl push items [item_a; item_b]).
    rewrite push_all by done. reflexivity.
Qed.

Lemma newest_first_witness :
  let w := quiet 0 (stocked 3) in
  let w1 := snd (saveNotificationToHistory (sample 0) w) in
  let w2 := snd (saveNotificationToHistory (sample 1) w1) in
  fst (getNotificationHistory w1) =
    Ok (VArr (json_elem (notificationItem (sample 0) (JsDate.iso_string 0))
              :: take 49 (json_elem <$> replicate 3 VNull))) ∧
  fst (getNotificationHistory w2) =
    Ok (VArr (json_elem (notificationItem (sample 1) (JsDate.iso_string 1))
              :: json_elem (notificationItem (sample 0) (JsDate.iso_string 0))
              :: take 48 (json_elem <$> replicate 3 VNull))).
Proof.
  apply (newest_first (sample 0) (sample 1) (quiet 0 (stocked 3)) (replicate 3 VNull)).
  - intros i. reflexivity.
  - reflexivity.
Defined.

(** C3. Delivery failures propagate, history failures do not. For every
    operation of the dispatcher and every world:
    (1) if the host rejects the delivery call with [e], the operation
    rejects with that same [e], the storage is left as it was and no
    storage call is made;
    (2) if the host accepts the delivery call and answers [id], the
    operation resolves to [id], whatever the storage does;
    (3) in particular it does so when the read or the write of the history
    fails, and the storage is then left as it was. *)
Theorem delivery_outcome (op : operation) (w : world) :
  (∀ e, delivery op w (inl e) →
        fst (run op w) = Throw e ∧
        storage (snd (run op w)) = storage w ∧
        storage_faults (snd (run op w)) = storage_faults w) ∧
  (∀ id, delivery op w (inr id) → fst (run op w) = Ok id) ∧
  (∀ id, delivery op w (inr id) →
         is_Some (storage_faults w 0) ∨ is_Some (storage_faults w 1) →
         fst (run op w) = Ok id ∧ storage (snd (run op w)) = storage w).
Proof.
  unfold delivery.
  destruct op; enter_service w.
  all: try destruct (scheduled_time _ _).
  all: destruct (deliveries w 0) as [e0 | id0] eqn:Hd;
    cbn [fst snd calls logged Notifications.asked Date.ticked storage storage_faults].
  all: rewrite ?(proj2 (save_frame _ _));
    cbn [calls deliveries Notifications.asked Date.ticked]; rewrite ?Hd.
  all: repeat split; intros;
    repeat match goal with H : ∃ _, _ |- _ => destruct H end;
    simplify_eq; try done;
    try (exfalso; eapply cons_self; eassumption).
  all: rewrite save_unchanged; [ reflexivity |];
    cbn [storage_faults Notifications.asked Date.ticked]; tauto.
Qed.

Lemma delivery_outcome_witness :
  let denied := HostError "denied" in
  (fst (run (OrderConfirmation latte) (rejecting denied (quiet 0 ∅))) = Throw denied ∧
   storage (snd (run (OrderConfirmation latte) (rejecting denied (quiet 0 ∅)))) = ∅ ∧
   storage_faults (snd (run (OrderConfirmation latte) (rejecting denied (quiet 0 ∅)))) =
     storage_faults (rejecting denied (quiet 0 ∅))) ∧
  fst (run (OrderConfirmation latte) (quiet 0 ∅)) = Ok "n0" ∧
  (fst (run (Scheduled "T" "B" None None) (failing 1 denied (quiet 0 ∅))) = Ok "n0" ∧
   storage (snd (run (Scheduled "T" "B" None None) (failing 1 denied (quiet 0 ∅)))) = ∅).
Proof.
  intros denied. split; [| split ].
  - apply (proj1 (delivery_outcome (OrderConfirmation latte)
                    (rejecting denied (quiet 0 ∅)))).
    eexists. reflexivity.
  - apply (proj1 (proj2 (delivery_outcome (OrderConfirmation latte) (quiet 0 ∅)))).
    eexists. reflexivity.
  - apply (proj2 (proj2 (delivery_outcome (Scheduled "T" "B" None None)
                           (failing 1 denied (quiet 0 ∅))))).
    + eexists. reflexivity.
    + right. eexists. reflexivity.
Defined.

(** C4. The order of one Latte. When the host accepts the delivery and
    the storage answers, [sendOrderConfirmationNotification] on
    [{coffeeName: "Latte", quantity: 1, totalPrice: 4.5, orderId: "o1"}]
    delivers the body ["Your order of 1 Latte is confirmed. Total: $4.50"],
    and the first record of the history read back afterwards has exactly
    the eight [data] properties of the scenario, [timestamp] being the
    ISO string of the time the clock read (it reads back as that time). *)
Theorem latte_order_scenario (w : world) (id : string) (items : list value) :
  deliveries w 0 = inr id → reliable w → persisted w = Some items →
  let body := "Your order of 1 Latte is confirmed. Total: $4.50" in
  let after := snd (sendOrderConfirmationNotification latte w) in
  let timestamp := JsDate.iso_string (clock w 0) in
  orderConfirmationBody latte = body ∧
  fst (sendOrderConfirmationNotification latte w) = Ok id ∧
  (∃ req, calls after = (req, inr id) :: calls w ∧
          content_title (request_content req) = "☕ Order Confirmed!" ∧
          content_body (request_content req) = body) ∧
  (∃ record rest,
     fst (getNotificationHistory after) = Ok (VArr (record :: rest)) ∧
     record_prop record "body" = Some (VStr body) ∧
     record_data record =
       Some (literal ∅
         [ ("title", VStr "☕ Order Confirmed!");
           ("body", VStr body);
           ("price", VNum 4.5);
           ("quantity", VNum 1);
           ("type", VStr "order_confirmed");
           ("orderId", VStr "o1");
           ("coffeeName", VStr "Latte");
           ("timestamp", VStr timestamp) ])) ∧
  ((- JsDate.max_time <= clock w 0 <= JsDate.max_time)%Z →
   parse_iso timestamp = Some (clock w 0)).
Proof.
  intros Hd Hrel Hp body after timestamp.
  assert (Hbody : orderConfirmationBody latte = body) by (vm_compute; reflexivity).
  split; [ exact Hbody |].
  split; [| split; [| split; [| apply iso_string_reads_back ] ] ].
  all: unfold after, timestamp, sendOrderConfirmationNotification.
  all: unfold Date.current, Date.toISOString; unfold Date.now; unfold bind, ret.
  all: cbv beta iota; rewrite Hbody.
  all: generalize (JsDate.iso_string (clock w 0)); intros ts.
  all: match goal with
       | |- context [sendLocalNotification ?t ?b ?d ?w0] =>
           destruct (send_local_persisted t b d w0 id items Hd (fun i => Hrel i) Hp)
             as (Hres & Hcalls & Hread)
       end.
  - exact Hres.
  - eexists. split; [ exact Hcalls |]. split; reflexivity.
  - eexists _, _. split; [ exact Hread |]. split; [ apply record_props |].
    rewrite stored_local_data. f_equal.
Qed.

Lemma latte_order_scenario_witness :
  let w := quiet 1700000000000 ∅ in
  let body := "Your order of 1 Latte is confirmed. Total: $4.50" in
  let after := snd (sendOrderConfirmationNotification latte w) in
  let timestamp := "2023-11-14T22:13:20.000Z" in
  orderConfirmationBody latte = body ∧
  fst (sendOrderConfirmationNotification latte w) = Ok "n0" ∧
  (∃ req, calls after = [(req, inr "n0")] ∧
          content_title (request_content req) = "☕ Order Confirmed!" ∧
          content_body (request_content req) = body) ∧
  (∃ record rest,
     fst (getNotificationHistory after) = Ok (VArr (record :: rest)) ∧
     record_prop record "body" = Some (VStr body) ∧
     record_data record =
       Some (literal ∅
         [ ("title", VStr "☕ Order Confirmed!");
           ("body", VStr body);
           ("price", VNum 4.5);
           ("quantity", VNum 1);
           ("type", VStr "order_confirmed");
           ("orderId", VStr "o1");
           ("coffeeName", VStr "Latte");
           ("timestamp", VStr timestamp) ])) ∧
  parse_iso timestamp = Some 1700000000000%Z.
Proof.
  intros w body after timestamp.
  destruct (latte_order_scenario w "n0" []) as (H1 & H2 & H3 & H4 & H5).
  - reflexivity.
  - intros i. reflexivity.
  - reflexivity.
  - split; [ exact H1 |]. split; [ exact H2 |]. split; [ exact H3 |].
    split; [ exact H4 |]. apply H5. vm_compute. split; discriminate.
Defined.

(** C5. Body templates. Whatever the host then does, the body an event
    operation hands to the host is the fixed template of its kind:
    the order confirmation writes ["is"] when the quantity equals 1 and
    ["are"] otherwise; the order-ready body carries ["(Nx)"] exactly when
    the quantity is greater than 1; payment and offer bodies follow their
    templates. Every amount that is a finite number below [10^21] is
    written with exactly two decimals, as the nearest hundredth
    ([12.5] as ["12.50"]). *)
Theorem body_templates (w : world) :
  (∀ d : orderDetails,
     sent_body (OrderConfirmation d) w =
       Some ("Your order of " +:+ Number.toString (quantity d) +:+ " " +:+
             coffeeName d +:+
             (if (quantity d =? 1)%float then " is" else " are") +:+
             " confirmed. Total: $" +:+ Number.toFixed (totalPrice d) 2) ∧
     (is_amount (totalPrice d) = true →
      shows_amount (Number.toFixed (totalPrice d) 2) (totalPrice d)) ∧
     sent_body (OrderReady d) w =
       Some (if (1 <? quantity d)%float
             then "Your " +:+ coffeeName d +:+ " (" +:+
                  Number.toString (quantity d) +:+ "x) is ready for pickup!"
             else "Your " +:+ coffeeName d +:+ "  is ready for pickup!")) ∧
  (∀ d : paymentDetails,
     sent_body (PaymentConfirmation d) w =
       Some ("Your payment of $" +:+ Number.toFixed (amount d) 2 +:+
             " has been processed successfully!") ∧
     (is_amount (amount d) = true →
      shows_amount (Number.toFixed (amount d) 2) (amount d))) ∧
  (∀ d : offerDetails,
     sent_body (SpecialOffer d) w =
       Some (offerTitle d +:+ ": Get " +:+ offer_coffeeName d +:+ " for $" +:+
             Number.toFixed (discountPrice d) 2 +:+ " (was $" +:+
             Number.toFixed (originalPrice d) 2 +:+ ")") ∧
     (is_amount (discountPrice d) = true →
      shows_amount (Number.toFixed (discountPrice d) 2) (discountPrice d)) ∧
     (is_amount (originalPrice d) = true →
      shows_amount (Number.toFixed (originalPrice d) 2) (originalPrice d))) ∧
  (∀ d : bookingDetails,
     sent_body (BookingConfirmation d) w =
       Some ("Your " +:+ booking_title d +:+ " are wait you")) ∧
  Number.toFixed 12.5 2 = "12.50".
Proof.
  unfold sent_body, run, sendOrderConfirmationNotification,
    sendOrderReadyNotification, sendPaymentConfirmationNotification,
    sendSpecialOfferNotification, sendBookingConfirmationNotification,
    orderConfirmationBody, orderReadyBody.
  unfold Date.current, Date.toISOString; unfold Date.now; unfold bind, ret.
  cbv beta iota.
  repeat split; intros; try apply toFixed_shows_amount; try assumption;
    rewrite ?sent_body_local; try reflexivity.
  all: f_equal; repeat case_match; rewrite ?append_assoc; reflexivity.
Qed.

Lemma body_templates_witness :
  shows_amount (Number.toFixed 4.5 2) 4.5 ∧
  shows_amount (Number.toFixed 2.25 2) 2.25 ∧
  shows_amount (Number.toFixed 3.5 2) 3.5 ∧
  shows_amount (Number.toFixed 5 2) 5.
Proof.
  split; [| split; [| split ] ].
  - apply (proj1 (proj2 (proj1 (body_templates (quiet 0 ∅)) latte))). reflexivity.
  - apply (proj2 (proj1 (proj2 (body_templates (quiet 0 ∅)))
             {| amount := 2.25; cardNumber := "4242"; paymentId := "p1" |})).
    reflexivity.
  - apply (proj1 (proj2 (proj1 (proj2 (proj2 (body_templates (quiet 0 ∅))))
             {| offerTitle := "Weekend"; offer_coffeeName := "Mocha";
                discountPrice := 3.5; originalPrice := 5 |}))).
    reflexivity.
  - apply (proj2 (proj2 (proj1 (proj2 (proj2 (body_templates (quiet 0 ∅))))
             {| offerTitle := "Weekend"; offer_coffeeName := "Mocha";
                discountPrice := 3.5; originalPrice := 5 |}))).
    reflexivity.
Defined.

(** C6. Price and quantity are always stored. For every operation of the
    dispatcher whose delivery the host accepts, when the storage answers,
    the record put in front of the history carries [data.price] and
    [data.quantity], neither of them [undefined]; for the two primitives
    [sendLocalNotification] and [scheduleNotification], a price or a
    quantity that the caller's [data] lacks is stored as 0. *)
Theorem price_and_quantity_present (op : operation) (w : world) (id : string)
  (items : list value) :
  delivery op w (inr id) → reliable w → persisted w = Some items →
  ∃ record rest stored price quantity,
    fst (getNotificationHistory (snd (run op w))) = Ok (VArr (record :: rest)) ∧
    record_prop record "id" = Some (VStr id) ∧
    record_data record = Some stored ∧
    stored !! "price" = Some price ∧ price ≠ VUndefined ∧
    stored !! "quantity" = Some quantity ∧ quantity ≠ VUndefined ∧
    ∀ t b d, op = Local t b d ∨ (∃ s, op = Scheduled t b d s) →
      (get (default ∅ d) "price" = VUndefined → price = VNum 0) ∧
      (get (default ∅ d) "quantity" = VUndefined → quantity = VNum 0).
Proof.
  intros Hdel Hrel Hp.
  destruct (delivery_accepted op w id Hdel) as [Hd Htime].
  destruct (run_shape op w)
    as [(t & b & d & s & ->) | (t & b & d & w0 & Hrun & Hw0 & Hdata & Hnot)].
  - destruct (Htime t b d s eq_refl) as [time Ht].
    destruct (schedule_persisted t b d s w id items time Ht Hd Hrel Hp)
      as (_ & _ & Hread).
    destruct (scheduled_data_lookup t b d) as (_ & _ & H3 & H4 & _).
    destruct (stored_price_quantity _ _ H3 H4)
      as (price & quantity & Hp1 & Hp2 & Hq1 & Hq2 & Hp0 & Hq0).
    eexists _, _, _, price, quantity.
    split; [ exact Hread |].
    split; [ apply record_props |].
    split; [ apply stored_scheduled_data |].
    repeat split; try assumption; intros; destruct H as [? | [? ?]]; simplify_eq; auto.
  - assert (Hd0 : deliveries w0 0 = inr id) by (destruct Hw0 as [-> | ->]; exact Hd).
    assert (Hrel0 : reliable w0) by (destruct Hw0 as [-> | ->]; exact Hrel).
    assert (Hp0' : persisted w0 = Some items) by (destruct Hw0 as [-> | ->]; exact Hp).
    destruct (send_local_persisted t b d w0 id items Hd0 Hrel0 Hp0')
      as (_ & _ & Hread).
    destruct (local_data_lookup t b d) as (_ & _ & H3 & H4 & _).
    destruct (stored_price_quantity _ _ H3 H4)
      as (price & quantity & Hp1 & Hp2 & Hq1 & Hq2 & Hp0 & Hq0).
    simpl run. rewrite Hrun.
    eexists _, _, _, price, quantity.
    split; [ exact Hread |].
    split; [ apply record_props |].
    split; [ apply stored_local_data |].
    repeat split; try assumption; intros; destruct H as [Hop | [? Hop]];
      try (by destruct (Hnot _ _ _ _ Hop));
      rewrite (Hdata _ _ _ Hop) in *; auto.
Qed.

Lemma price_and_quantity_present_witness :
  ∃ record rest stored price quantity,
    fst (getNotificationHistory
           (snd (run (Local "T" "B" (Some {[ "type" := VStr "note" ]})) (quiet 0 ∅)))) =
      Ok (VArr (record :: rest)) ∧
    record_prop record "id" = Some (VStr "n0") ∧
    record_data record = Some stored ∧
    stored !! "price" = Some price ∧ price ≠ VUndefined ∧
    stored !! "quantity" = Some quantity ∧ quantity ≠ VUndefined ∧
    ∀ t b d,
      Local "T" "B" (Some {[ "type" := VStr "note" ]}) = Local t b d ∨
      (∃ s, Local "T" "B" (Some {[ "type" := VStr "note" ]}) = Scheduled t b d s) →
      (get (default ∅ d) "price" = VUndefined → price = VNum 0) ∧
      (get (default ∅ d) "quantity" = VUndefined → quantity = VNum 0).
Proof.
  apply (price_and_quantity_present
           (Local "T" "B" (Some {[ "type" := VStr "note" ]})) (quiet 0 ∅) "n0" []).
  - eexists. reflexivity.
  - intros i. reflexivity.
  - reflexivity.
Defined.

(** C7. The scheduled time. [scheduleNotification] without [seconds]
    behaves as with 60 seconds. When the time [Date.now() + seconds * 1000]
    is a valid date [time], the host accepts the delivery and the storage
    answers: the trigger asks for [seconds]; the record handed to
    [saveNotificationToHistory] carries [scheduledAt], the ISO string of
    [time] (it reads back as [time]), computed from the clock reading
    taken before the delivery, whereas [receivedAt] comes from the later
    reading; the stored record keeps that string under the source's
    spelling [shleduledAt] (it has no property spelled [scheduledAt]).
    For a notification sent with [sendLocalNotification] the stored value
    is the empty string. *)
Theorem scheduled_time_is_recorded (t b : string) (d : option object)
  (s : option float) (w : world) (id : string) (items : list value) (time : Z) :
  deliveries w 0 = inr id → reliable w → persisted w = Some items →
  scheduled_time (clock w 0) s = Some time →
  scheduleNotification t b d None = scheduleNotification t b d (Some 60%float) ∧
  (∃ req n record rest,
     calls (snd (scheduleNotification t b d s w)) = (req, inr id) :: calls w ∧
     trigger req = Some (default 60%float s) ∧
     snd (scheduleNotification t b d s w) =
       logged (Log "Notification scheduled:" id)
         (snd (saveNotificationToHistory n
                 (Notifications.asked req (Date.ticked w)))) ∧
     scheduledAt n = Some (JsDate.iso_string time) ∧
     parse_iso (JsDate.iso_string time) = Some time ∧
     fst (getNotificationHistory (snd (scheduleNotification t b d s w))) =
       Ok (VArr (record :: rest)) ∧
     record_prop record "id" = Some (VStr id) ∧
     record_prop record "shleduledAt" = Some (VStr (JsDate.iso_string time)) ∧
     record_prop record "scheduledAt" = None ∧
     record_prop record "receivedAt" = Some (VStr (JsDate.iso_string (clock w 1)))) ∧
  (∃ record rest,
     fst (getNotificationHistory (snd (sendLocalNotification t b d w))) =
       Ok (VArr (record :: rest)) ∧
     record_prop record "id" = Some (VStr id) ∧
     record_prop record "shleduledAt" = Some (VStr "")).
Proof.
  intros Hd Hrel Hp Ht. split; [ reflexivity |]. split.
  - destruct (schedule_persisted t b d s w id items time Ht Hd Hrel Hp)
      as (_ & Hcalls & Hread).
    eexists _, (scheduled_record id t b d (JsDate.iso_string time)), _, _.
    split; [ exact Hcalls |]. split; [ reflexivity |].
    split; [ rewrite schedule_run, Ht, Hd; reflexivity |].
    split; [ reflexivity |].
    split; [ apply iso_string_reads_back, (time_clip_range _ _ Ht) |].
    split; [ exact Hread |].
    repeat split; apply record_props.
  - destruct (send_local_persisted t b d w id items Hd Hrel Hp) as (_ & _ & Hread).
    eexists _, _. split; [ exact Hread |]. split; apply record_props.
Qed.

Lemma scheduled_time_is_recorded_witness :
  let w := quiet 1700000000000 ∅ in
  let at_ := "2023-11-14T22:13:50.000Z" in
  scheduleNotification "T" "B" None None =
    scheduleNotification "T" "B" None (Some 60%float) ∧
  (∃ req n record rest,
     calls (snd (scheduleNotification "T" "B" None (Some 30%float) w)) =
       (req, inr "n0") :: calls w ∧
     trigger req = Some 30%float ∧
     snd (scheduleNotification "T" "B" None (Some 30%float) w) =
       logged (Log "Notification scheduled:" "n0")
         (snd (saveNotificationToHistory n
                 (Notifications.asked req (Date.ticked w)))) ∧
     scheduledAt n = Some at_ ∧
     parse_iso at_ = Some 1700000030000%Z ∧
     fst (getNotificationHistory (snd (scheduleNotification "T" "B" None (Some 30%float) w))) =
       Ok (VArr (record :: rest)) ∧
     record_prop record "id" = Some (VStr "n0") ∧
     record_prop record "shleduledAt" = Some (VStr at_) ∧
     record_prop record "scheduledAt" = None ∧
     record_prop record "receivedAt" = Some (VStr "2023-11-14T22:13:20.001Z")) ∧
  (∃ record rest,
     fst (getNotificationHistory (snd (sendLocalNotification "T" "B" None w))) =
       Ok (VArr (record :: rest)) ∧
     record_prop record "id" = Some (VStr "n0") ∧
     record_prop record "shleduledAt" = Some (VStr "")).
Proof.
  apply (scheduled_time_is_recorded "T" "B" None (Some 30%float)
           (quiet 1700000000000 ∅) "n0" [] 1700000030000).
  - reflexivity.
  - intros i. reflexivity.
  - reflexivity.
  - reflexivity.
Defined.

(** C8. The store never raises. In every world the three operations of
    the store resolve. When the read is rejected or what is stored is not
    JSON, [getNotificationHistory] returns the empty list. When the read
    or the write is rejected, or what is stored is not the text of an
    array, [saveNotificationToHistory] leaves the storage as it was; so
    does [clearNotificationHistory] when the removal is rejected. *)
Theorem store_never_raises (n : notification) (w : world) :
  (fst (saveNotificationToHistory n w) = Ok tt ∧
   (∃ v, fst (getNotificationHistory w) = Ok v) ∧
   fst (clearNotificationHistory w) = Ok tt) ∧
  (is_Some (storage_faults w 0) ∨ storage w !! historyKey = Some Malformed →
   fst (getNotificationHistory w) = Ok (VArr [])) ∧
  (is_Some (storage_faults w 0) ∨ is_Some (storage_faults w 1) ∨
   storage w !! historyKey = Some Malformed ∨ persisted w = None →
   storage (snd (saveNotificationToHistory n w)) = storage w) ∧
  (is_Some (storage_faults w 0) →
   storage (snd (clearNotificationHistory w)) = storage w).
Proof.
  repeat split.
  - apply save_resolves.
  - rewrite get_history_result. repeat case_match; eauto.
  - apply clear_result.
  - rewrite get_history_result. intros [[e He] | Hbad].
    + rewrite He. reflexivity.
    + rewrite Hbad. case_match; reflexivity.
  - intros [H | [H | [H | H]]]; apply save_unchanged; [ tauto | tauto | | tauto ].
    right; right. unfold persisted. rewrite H. reflexivity.
  - intros [e He]. rewrite (proj2 (clear_result w)), He. reflexivity.
Qed.

Lemma store_never_raises_witness :
  let denied := HostError "denied" in
  fst (getNotificationHistory (failing 0 denied (quiet 0 (stocked 3)))) = Ok (VArr []) ∧
  fst (getNotificationHistory (quiet 0 {[ historyKey := Malformed ]})) = Ok (VArr []) ∧
  storage (snd (saveNotificationToHistory (sample 0) (failing 1 denied (quiet 0 (stocked 3))))) =
    stocked 3 ∧
  storage (snd (clearNotificationHistory (failing 0 denied (quiet 0 (stocked 3))))) =
    stocked 3.
Proof.
  intros denied. split; [| split; [| split ] ].
  - apply (proj1 (proj2 (store_never_raises (sample 0)
                           (failing 0 denied (quiet 0 (stocked 3)))))).
    left. eexists. reflexivity.
  - apply (proj1 (proj2 (store_never_raises (sample 0)
                           (quiet 0 {[ historyKey := Malformed ]})))).
    right. reflexivity.
  - apply (proj1 (proj2 (proj2 (store_never_raises (sample 0)
                           (failing 1 denied (quiet 0 (stocked 3))))))).
    right. left. eexists. reflexivity.
  - apply (proj2 (proj2 (proj2 (store_never_raises (sample 0)
                           (failing 0 denied (quiet 0 (stocked 3))))))).
    eexists. reflexivity.
Defined.

(** C9. Clear, then read. When the storage carries out the removal,
    [clearNotificationHistory] deletes the stored value under the history
    key, whatever it was, and [getNotificationHistory] then returns the
    empty list. *)
Theorem clear_then_read (w : world) :
  storage_faults w 0 = None →
  storage (snd (clearNotificationHistory w)) = delete historyKey (storage w) ∧
  fst (getNotificationHistory (snd (clearNotificationHistory w))) = Ok (VArr []).
Proof.
  intros H0. pose proof (proj2 (clear_result w)) as Hs. rewrite H0 in Hs.
  split; [ exact Hs |].
  rewrite get_history_result, Hs, lookup_delete_eq. case_match; reflexivity.
Qed.

Lemma clear_then_read_witness :
  storage (snd (clearNotificationHistory (quiet 0 (stocked 3)))) =
    delete historyKey (stocked 3) ∧
  fst (getNotificationHistory (snd (clearNotificationHistory (quiet 0 (stocked 3))))) =
    Ok (VArr []).
Proof.
  apply (clear_then_read (quiet 0 (stocked 3))). reflexivity.
Defined.

(** C10. What each primitive keeps of [data]. When the host accepts the
    delivery and the storage answers: the content [scheduleNotification]
    delivers and the record it stores have a [data] with the four
    properties [title], [body], [price] and [quantity] and no other, so
    every other property of the caller's [data] is dropped from both;
    [sendLocalNotification] sets the same four properties and passes
    every other property of the caller's [data] on to the delivered
    content unchanged and to the stored record as JSON keeps it. *)
Theorem scheduled_keeps_four_fields (t b : string) (d : option object)
  (s : option float) (w : world) (id : string) (items : list value) :
  deliveries w 0 = inr id → reliable w → persisted w = Some items →
  (∀ time, scheduled_time (clock w 0) s = Some time →
     ∃ req record rest stored,
       calls (snd (scheduleNotification t b d s w)) = (req, inr id) :: calls w ∧
       fst (getNotificationHistory (snd (scheduleNotification t b d s w))) =
         Ok (VArr (record :: rest)) ∧
       record_data record = Some stored ∧
       (∀ k, k ∈ copied →
             is_Some (content_data (request_content req) !! k) ∧ is_Some (stored !! k)) ∧
       (∀ k, k ∉ copied →
             content_data (request_content req) !! k = None ∧ stored !! k = None)) ∧
  (∃ req record rest stored,
     calls (snd (sendLocalNotification t b d w)) = (req, inr id) :: calls w ∧
     fst (getNotificationHistory (snd (sendLocalNotification t b d w))) =
       Ok (VArr (record :: rest)) ∧
     record_data record = Some stored ∧
     (∀ k, k ∈ copied →
           is_Some (content_data (request_content req) !! k) ∧ is_Some (stored !! k)) ∧
     (∀ k, k ∉ copied →
           content_data (request_content req) !! k = default ∅ d !! k ∧
           stored !! k = default ∅ d !! k ≫= toJSON)).
Proof.
  intros Hd Hrel Hp. split.
  - intros time Ht.
    destruct (schedule_persisted t b d s w id items time Ht Hd Hrel Hp)
      as (_ & Hcalls & Hread).
    destruct (scheduled_data_lookup t b d) as (H1 & H2 & H3 & H4 & Hother).
    eexists _, _, _, _. split; [ exact Hcalls |]. split; [ exact Hread |].
    split; [ apply stored_scheduled_data |]. split.
    + intros k Hk. cbn [scheduled_request request_content alert content_data].
      rewrite lookup_omap. unfold copied in Hk.
      repeat (apply elem_of_cons in Hk as [-> | Hk]);
        [ rewrite H1 | rewrite H2 | rewrite H3 | rewrite H4 | by apply elem_of_nil in Hk ];
        simpl; split; eauto;
        rewrite (proj1 (json_elem_defined _ (or_else_defined _))); eauto.
    + intros k Hk. cbn [scheduled_request request_content alert content_data].
      rewrite lookup_omap, (Hother k Hk). done.
  - destruct (send_local_persisted t b d w id items Hd Hrel Hp)
      as (_ & Hcalls & Hread).
    destruct (local_data_lookup t b d) as (H1 & H2 & H3 & H4 & Hother).
    eexists _, _, _, _. split; [ exact Hcalls |]. split; [ exact Hread |].
    split; [ apply stored_local_data |]. split.
    + intros k Hk. cbn [local_request request_content alert content_data].
      rewrite lookup_omap. unfold copied in Hk.
      repeat (apply elem_of_cons in Hk as [-> | Hk]);
        [ rewrite H1 | rewrite H2 | rewrite H3 | rewrite H4 | by apply elem_of_nil in Hk ];
        simpl; split; eauto;
        rewrite (proj1 (json_elem_defined _ (or_else_defined _))); eauto.
    + intros k Hk. cbn [local_request request_content alert content_data].
      rewrite lookup_omap, (Hother k Hk). done.
Qed.

Lemma scheduled_keeps_four_fields_witness :
  let w := quiet 1700000000000 ∅ in
  (∃ req record rest stored,
     calls (snd (scheduleNotification "T" "B" tagged None w)) = (req, inr "n0") :: calls w ∧
     fst (getNotificationHistory (snd (scheduleNotification "T" "B" tagged None w))) =
       Ok (VArr (record :: rest)) ∧
     record_data record = Some stored ∧
     (∀ k, k ∈ copied →
           is_Some (content_data (request_content req) !! k) ∧ is_Some (stored !! k)) ∧
     (∀ k, k ∉ copied →
           content_data (request_content req) !! k = None ∧ stored !! k = None)) ∧
  (∃ req record rest stored,
     calls (snd (sendLocalNotification "T" "B" tagged w)) = (req, inr "n0") :: calls w ∧
     fst (getNotificationHistory (snd (sendLocalNotification "T" "B" tagged w))) =
       Ok (VArr (record :: rest)) ∧
     record_data record = Some stored ∧
     (∀ k, k ∈ copied →
           is_Some (content_data (request_content req) !! k) ∧ is_Some (stored !! k)) ∧
     (∀ k, k ∉ copied →
           content_data (request_content req) !! k = default ∅ tagged !! k ∧
           stored !! k = default ∅ tagged !! k ≫= toJSON)).
Proof.
  intros w.
  destruct (scheduled_keeps_four_fields "T" "B" tagged None w "n0" [])
    as [Hs Hl].
  - reflexivity.
  - intros i. reflexivity.
  - reflexivity.
  - split; [ apply (Hs 1700000060000%Z); reflexivity | exact Hl ].
Defined.

(** * Further properties of the service *)

(** X1. One request, fixed hints. Whatever the world, an operation of the
    dispatcher hands the host exactly one request, unless it is a
    [scheduleNotification] whose time is not a date, which rejects with a
    RangeError without asking the host. The request always carries sound,
    high priority, the vibration pattern 0, 250, 250, 250 and the badge
    count 1; its trigger is [null] for every operation but
    [scheduleNotification], whose trigger is the number of seconds
    (60 when the caller gives none). *)
Theorem one_request_fixed_hints (op : operation) (w : world) :
  (calls (snd (run op w)) = calls w ∧ fst (run op w) = Throw RangeError ∧
   ∃ t b d s, op = Scheduled t b d s ∧ scheduled_time (clock w 0) s = None) ∨
  (∃ req,
     calls (snd (run op w)) = (req, deliveries w 0) :: calls w ∧
     sound (request_content req) = true ∧
     priority (request_content req) = HIGH ∧
     vibrate (request_content req) = [0; 250; 250; 250]%Z ∧
     badge (request_content req) = 1%Z ∧
     trigger req = match op with
                   | Scheduled _ _ _ s => Some (default 60%float s)
                   | _ => None
                   end).
Proof.
  destruct (run_cases op w)
    as [(t & b & d & s & -> & Ht & Hrun) | (t & b & d & at_ & Hs & Hn & Hrun)].
  - left. rewrite Hrun. split; [ reflexivity |]. split; [ reflexivity |]. eauto 10.
  - right. cbv zeta in Hrun.
    exists {| request_content := alert t b d;
              trigger := match op with
                         | Scheduled _ _ _ s => Some (default 60%float s)
                         | _ => None
                         end |}.
    rewrite Hrun.
    destruct (before_request_frame op w) as (_ & _ & Hdel & Hc & _).
    split; [| repeat split ].
    destruct (deliveries w 0) as [e | id] eqn:Hd;
      cbn [snd logged calls Notifications.asked];
      rewrite ?(proj2 (save_frame _ _));
      cbn [calls Notifications.asked]; rewrite Hc, Hdel, Hd; reflexivity.
Qed.

(** X2. The history mirrors the delivery. When the host accepts the
    request of an operation and the storage answers, the record put in
    front of the history carries the identifier the host assigned, the
    title and the body of the delivered content, and as [data] the
    delivered [data] as JSON keeps it; the previous records follow, cut to
    49. Its [receivedAt] is the ISO string of the clock reading taken by
    the store, a timestamp that reads back as that time. *)
Theorem history_mirrors_delivery (op : operation) (w : world) (id : string)
  (items : list value) :
  delivery op w (inr id) → reliable w → persisted w = Some items →
  ∃ req record,
    calls (snd (run op w)) = (req, inr id) :: calls w ∧
    fst (getNotificationHistory (snd (run op w))) =
      Ok (VArr (record :: take 49 (json_elem <$> items))) ∧
    record_prop record "id" = Some (VStr id) ∧
    record_prop record "title" = Some (VStr (content_title (request_content req))) ∧
    record_prop record "body" = Some (VStr (content_body (request_content req))) ∧
    record_data record = Some (omap toJSON (content_data (request_content req))) ∧
    record_prop record "receivedAt" =
      Some (VStr (JsDate.iso_string (clock (before_request op w) 0))) ∧
    ((- JsDate.max_time <= clock (before_request op w) 0 <= JsDate.max_time)%Z →
     parse_iso (JsDate.iso_string (clock (before_request op w) 0)) =
       Some (clock (before_request op w) 0)).
Proof.
  intros Hdel Hrel Hp.
  destruct (run_accepted op w id Hdel) as (t & b & d & at_ & Hd & _ & _ & Hrun).
  cbv zeta in Hrun. rewrite Hrun. cbn [fst snd].
  destruct (before_request_frame op w) as (Hst & Hf & Hdl & Hc & _).
  eexists _, _. split; [| split ].
  - cbn [logged calls]. rewrite (proj2 (save_frame _ _)).
    cbn [calls Notifications.asked]. rewrite Hc, Hdl, Hd. reflexivity.
  - apply written_then_read.
    + intros i. cbn [storage_faults Notifications.asked]. rewrite Hf. apply Hrel.
    + unfold persisted in *. cbn [storage Notifications.asked]. rewrite Hst. exact Hp.
  - cbn [clock Notifications.asked].
    destruct (record_props (mirrored id (alert t b d) at_)
                (JsDate.iso_string (clock (before_request op w) 0)))
      as (H1 & H2 & H3 & H4 & _).
    split; [ exact H1 |]. split; [ exact H2 |]. split; [ exact H3 |].
    split; [ apply record_data_copied |]. split; [ exact H4 |].
    apply iso_string_reads_back.
Qed.

Lemma history_mirrors_delivery_witness :
  ∃ req record,
    calls (snd (run (OrderReady latte) (quiet 0 (stocked 2)))) = [(req, inr "n0")] ∧
    fst (getNotificationHistory (snd (run (OrderReady latte) (quiet 0 (stocked 2))))) =
      Ok (VArr (record :: take 49 (json_elem <$> replicate 2 VNull))) ∧
    record_prop record "id" = Some (VStr "n0") ∧
    record_prop record "title" = Some (VStr (content_title (request_content req))) ∧
    record_prop record "body" = Some (VStr (content_body (request_content req))) ∧
    record_data record = Some (omap toJSON (content_data (request_content req))) ∧
    record_prop record "receivedAt" = Some (VStr "1970-01-01T00:00:00.000Z") ∧
    parse_iso "1970-01-01T00:00:00.000Z" = Some 0%Z.
Proof.
  destruct (history_mirrors_delivery (OrderReady latte) (quiet 0 (stocked 2)) "n0"
              (replicate 2 VNull))
    as (req & record & H1 & H2 & H3 & H4 & H5 & H6 & H7 & H8).
  - eexists. reflexivity.
  - intros i. reflexivity.
  - reflexivity.
  - exists req, record.
    split; [ exact H1 |]. split; [ exact H2 |]. split; [ exact H3 |].
    split; [ exact H4 |]. split; [ exact H5 |]. split; [ exact H6 |].
    split; [ exact H7 |]. apply H8. vm_compute. split; discriminate.
Defined.

(** X3. What every event delivers. For each operation that hands a
    request to the host, the delivered [data] repeats the delivered title
    and body under [title] and [body] (whatever the caller put there: the
    booking's own title survives only inside the body), and carries the
    tag of the event under [type]: [booking_confirmed],
    [payment_confirmed], [order_confirmed], [order_ready] or
    [special_offer]; [sendLocalNotification] passes the caller's [type]
    on and [scheduleNotification] delivers none. A booking is delivered
    with price 0 and quantity 0, a payment and an offer with quantity 1. *)
Theorem events_are_tagged (op : operation) (w : world) (req : request)
  (out : error + string) :
  calls (snd (run op w)) = (req, out) :: calls w →
  let data := content_data (request_content req) in
  data !! "title" = Some (VStr (content_title (request_content req))) ∧
  data !! "body" = Some (VStr (content_body (request_content req))) ∧
  content_title (request_content req) =
    match op with
    | BookingConfirmation _ => "🎉 Booking Confirmed!"
    | PaymentConfirmation _ => "💳 Payment Successful"
    | OrderConfirmation _ => "☕ Order Confirmed!"
    | OrderReady _ => "✅ Your Order is Ready!"
    | SpecialOffer _ => "🎉 Special Offer!"
    | Local t _ _ | Scheduled t _ _ _ => t
    end ∧
  data !! "type" =
    match op with
    | BookingConfirmation _ => Some (VStr "booking_confirmed")
    | PaymentConfirmation _ => Some (VStr "payment_confirmed")
    | OrderConfirmation _ => Some (VStr "order_confirmed")
    | OrderReady _ => Some (VStr "order_ready")
    | SpecialOffer _ => Some (VStr "special_offer")
    | Local _ _ d => default ∅ d !! "type"
    | Scheduled _ _ _ _ => None
    end ∧
  data !! "price" =
    Some match op with
         | BookingConfirmation _ => VNum 0
         | PaymentConfirmation d => or_else (VNum (amount d)) (VNum 0)
         | OrderConfirmation d | OrderReady d => or_else (VNum (totalPrice d)) (VNum 0)
         | SpecialOffer d => or_else (VNum (discountPrice d)) (VNum 0)
         | Local _ _ d | Scheduled _ _ d _ =>
             or_else (get (default ∅ d) "price") (VNum 0)
         end ∧
  data !! "quantity" =
    Some match op with
         | BookingConfirmation _ => VNum 0
         | PaymentConfirmation _ | SpecialOffer _ => VNum 1
         | OrderConfirmation d | OrderReady d => or_else (VNum (quantity d)) (VNum 0)
         | Local _ _ d | Scheduled _ _ d _ =>
             or_else (get (default ∅ d) "quantity") (VNum 0)
         end.
Proof.
  destruct op; enter_service w.
  all: try destruct (scheduled_time _ _) eqn:Ht.
  all: destruct (deliveries w 0) as [e0 | id0] eqn:Hd;
    cbn [fst snd calls logged Notifications.asked Date.ticked].
  all: rewrite ?(proj2 (save_frame _ _));
    cbn [calls deliveries Notifications.asked Date.ticked]; rewrite ?Hd.
  all: intros Hcalls; simplify_eq; try (exfalso; eapply cons_self; eassumption).
  all: cbv zeta;
    cbn [local_request scheduled_request request_content alert content_data
         content_title content_body].
  all: match goal with
       | |- context [local_data ?t ?b ?d] =>
           destruct (local_data_lookup t b d) as (H1 & H2 & H3 & H4 & H5);
           rewrite H1, H2, H3, H4, (H5 "type")
             by (rewrite !elem_of_cons, elem_of_nil; intros [? | [? | [? | [? | []]]]];
                 discriminate)
       | |- context [scheduled_data ?t ?b ?d] =>
           destruct (scheduled_data_lookup t b d) as (H1 & H2 & H3 & H4 & H5);
           rewrite H1, H2, H3, H4, (H5 "type")
             by (rewrite !elem_of_cons, elem_of_nil; intros [? | [? | [? | [? | []]]]];
                 discriminate)
       end.
  all: repeat split; reflexivity.
Qed.

Lemma events_are_tagged_witness :
  ∃ req,
    calls (snd (run (BookingConfirmation {| booking_title := "Road trip" |})
                  (quiet 0 ∅))) = [(req, inr "n0")] ∧
    content_body (request_content req) = "Your Road trip are wait you" ∧
    content_data (request_content req) !! "title" = Some (VStr "🎉 Booking Confirmed!") ∧
    content_data (request_content req) !! "type" = Some (VStr "booking_confirmed") ∧
    content_data (request_content req) !! "price" = Some (VNum 0) ∧
    content_data (request_content req) !! "quantity" = Some (VNum 0).
Proof.
  eexists. split; [ reflexivity |].
  match goal with
  | |- context [content_body (request_content ?r)] =>
      assert (Hcalls :
        calls (snd (run (BookingConfirmation {| booking_title := "Road trip" |})
                      (quiet 0 ∅))) = (r, inr "n0") :: calls (quiet 0 ∅))
        by reflexivity;
      destruct (events_are_tagged _ _ _ _ Hcalls) as (H1 & H2 & H3 & H4 & H5 & H6)
  end.
  split; [ reflexivity |]. split; [ rewrite H1, H3; reflexivity |].
  split; [ exact H4 |]. split; [ exact H5 | exact H6 ].
Defined.

(** X4. Where failures are logged. An operation whose delivery the host
    rejects writes one error line of its primitive with the host's error
    on the console. An operation whose delivery is accepted and whose
    record is stored writes only the success line with the identifier.
    When the read or the write of the history is rejected with [e], the
    store writes its own error line with [e], and the primitive still
    writes the success line after it. *)
Theorem failures_are_logged (op : operation) (w : world) :
  (∀ e, delivery op w (inl e) →
        console (snd (run op w)) = Error (failure_line op) e :: console w) ∧
  (∀ id items,
     delivery op w (inr id) →
     storage_faults w 0 = None → storage_faults w 1 = None →
     persisted w = Some items →
     console (snd (run op w)) = Log (success_line op) id :: console w) ∧
  (∀ id e,
     delivery op w (inr id) →
     storage_faults w 0 = Some e ∨
     (storage_faults w 0 = None ∧ is_Some (persisted w) ∧ storage_faults w 1 = Some e) →
     console (snd (run op w)) =
       Log (success_line op) id ::
       Error "Error saving notification to history:" e :: console w).
Proof.
  destruct (before_request_frame op w) as (Hst & Hf & _ & _ & Hcon).
  split; [| split ].
  - intros e Hdel. destruct (run_rejected op w e Hdel) as (req & _ & Hrun).
    rewrite Hrun. cbn [snd logged console Notifications.asked].
    rewrite Hcon. reflexivity.
  - intros id items Hdel H0 H1 Hp.
    destruct (run_accepted op w id Hdel) as (t & b & d & at_ & _ & _ & _ & Hrun).
    cbv zeta in Hrun. rewrite Hrun. cbn [snd logged console]. f_equal.
    rewrite (save_console_written _ _ items).
    + exact Hcon.
    + cbn [storage_faults Notifications.asked]. rewrite Hf. exact H0.
    + cbn [storage_faults Notifications.asked]. rewrite Hf. exact H1.
    + unfold persisted in *. cbn [storage Notifications.asked]. rewrite Hst. exact Hp.
  - intros id e Hdel Hfault.
    destruct (run_accepted op w id Hdel) as (t & b & d & at_ & _ & _ & _ & Hrun).
    cbv zeta in Hrun. rewrite Hrun. cbn [snd logged console]. f_equal.
    match goal with
    | |- console (snd (saveNotificationToHistory ?n ?w1)) = _ =>
        destruct (save_failed n w1 e) as [_ Hlog]
    end.
    + unfold persisted in *. cbn [storage storage_faults Notifications.asked].
      rewrite Hf, Hst. tauto.
    + rewrite Hlog. cbn [console Notifications.asked]. rewrite Hcon. reflexivity.
Qed.

Lemma failures_are_logged_witness :
  let denied := HostError "denied" in
  console (snd (run (OrderReady latte) (rejecting denied (quiet 0 ∅)))) =
    [Error "Error sending local notification:" denied] ∧
  console (snd (run (Scheduled "T" "B" None None) (quiet 0 ∅))) =
    [Log "Notification scheduled:" "n0"] ∧
  console (snd (run (OrderReady latte) (failing 1 denied (quiet 0 ∅)))) =
    [Log "Local notification sent:" "n0";
     Error "Error saving notification to history:" denied].
Proof.
  intros denied. split; [| split ].
  - apply (proj1 (failures_are_logged (OrderReady latte)
                    (rejecting denied (quiet 0 ∅)))).
    eexists. reflexivity.
  - apply (proj1 (proj2 (failures_are_logged (Scheduled "T" "B" None None)
                           (quiet 0 ∅))) "n0" []).
    + eexists. reflexivity.
    + reflexivity.
    + reflexivity.
    + reflexivity.
  - apply (proj2 (proj2 (failures_are_logged (OrderReady latte)
                           (failing 1 denied (quiet 0 ∅))))).
    + eexists. reflexivity.
    + right. split; [ reflexivity |]. split; [ eexists; reflexivity | reflexivity ].
Defined.

(** X5. A schedule without a date. When [Date.now() + seconds * 1000] is
    not a valid time, [scheduleNotification] rejects with a RangeError
    before it asks the host: no request is made, no storage call is made,
    the storage is left as it was, and the error is logged once. This is
    what happens, at any clock reading, when [seconds] is NaN or
    infinite. *)
Theorem schedule_without_a_date (t b : string) (d : option object) (w : world) :
  (∀ s, scheduled_time (clock w 0) s = None →
     let r := scheduleNotification t b d s w in
     fst r = Throw RangeError ∧
     calls (snd r) = calls w ∧
     deliveries (snd r) = deliveries w ∧
     storage (snd r) = storage w ∧
     storage_faults (snd r) = storage_faults w ∧
     console (snd r) = Error "Error scheduling notification:" RangeError :: console w) ∧
  (∀ now, scheduled_time now (Some nan) = None ∧
          scheduled_time now (Some infinity) = None ∧
          scheduled_time now (Some neg_infinity) = None).
Proof.
  split.
  - intros s Hs. cbv zeta. rewrite schedule_run, Hs. repeat split; reflexivity.
  - intros now.
    unfold scheduled_time, Date.of_number, JsDate.time_clip, Number.truncate.
    cbn [default]. rewrite !add_spec, !mul_spec.
    change (Prim2SF nan) with S754_nan.
    change (Prim2SF infinity) with (S754_infinity false).
    change (Prim2SF neg_infinity) with (S754_infinity true).
    change (Prim2SF 1000) with (S754_finite false 8796093022208000 (-43)).
    destruct (Prim2SF (Number.of_Z now)) as [[] | [] | | [] m e];
      repeat split; reflexivity.
Qed.

Lemma schedule_without_a_date_witness :
  let r := scheduleNotification "T" "B" None (Some nan) (quiet 0 (stocked 2)) in
  fst r = Throw RangeError ∧
  calls (snd r) = [] ∧
  deliveries (snd r) = deliveries (quiet 0 (stocked 2)) ∧
  storage (snd r) = stocked 2 ∧
  storage_faults (snd r) = storage_faults (quiet 0 (stocked 2)) ∧
  console (snd r) = [Error "Error scheduling notification:" RangeError].
Proof.
  apply (proj1 (schedule_without_a_date "T" "B" None (quiet 0 (stocked 2))) (Some nan)).
  vm_compute. reflexivity.
Defined.

(** X6. The store applies no default. A record appended by calling
    [saveNotificationToHistory] directly is stored with the [data] it was
    given, as JSON keeps it: the four properties the function sets again
    are taken from [data] itself. A property [data] lacks, or holds as
    [undefined], is absent from the stored record; this includes [price]
    and [quantity], which only the two delivery primitives default to 0. *)
Theorem store_keeps_data_as_given (n : notification) (w : world)
  (items : list value) :
  reliable w → persisted w = Some items →
  ∃ record stored,
    fst (getNotificationHistory (snd (saveNotificationToHistory n w))) =
      Ok (VArr (record :: take 49 (json_elem <$> items))) ∧
    record_data record = Some stored ∧
    stored = omap toJSON (data n) ∧
    (∀ k, get (data n) k = VUndefined → stored !! k = None) ∧
    (∀ k v, data n !! k = Some v → stored !! k = toJSON v).
Proof.
  intros Hrel Hp.
  exists (json_elem (notificationItem n (JsDate.iso_string (clock w 0)))),
         (omap toJSON (data n)).
  split.
  - rewrite (save_written n w items (Hrel 0) (Hrel 1) Hp).
    rewrite get_history_result. cbn [snd storage storage_faults].
    unfold later. rewrite (Hrel 2), lookup_insert_eq, fmap_take. reflexivity.
  - split; [ apply record_data_copied |]. split; [ reflexivity |]. split.
    + intros k Hk. rewrite lookup_omap. unfold get in Hk.
      destruct (data n !! k) as [v |]; [| reflexivity ].
      simpl in Hk. subst v. reflexivity.
    + intros k v Hk. rewrite lookup_omap, Hk. reflexivity.
Qed.

Lemma store_keeps_data_as_given_witness :
  let n := {| id := "n7"; title := "T"; body := "B";
              data := {[ "type" := VStr "note"; "price" := VUndefined ]};
              scheduledAt := None |} in
  ∃ record stored,
    fst (getNotificationHistory (snd (saveNotificationToHistory n (quiet 0 ∅)))) =
      Ok (VArr (record :: take 49 (json_elem <$> []))) ∧
    record_data record = Some stored ∧
    stored = {[ "type" := VStr "note" ]} ∧
    stored !! "price" = None ∧ stored !! "quantity" = None ∧
    stored !! "type" = Some (VStr "note").
Proof.
  intros n.
  destruct (store_keeps_data_as_given n (quiet 0 ∅) [])
    as (record & stored & H1 & H2 & H3 & H4 & H5).
  - intros i. reflexivity.
  - reflexivity.
  - exists record, stored. split; [ exact H1 |]. split; [ exact H2 |].
    split; [ rewrite H3; vm_compute; reflexivity |].
    split; [ apply H4; reflexivity |].
    split; [ apply H4; reflexivity |].
    apply (H5 "type" (VStr "note")). reflexivity.
Defined.

(** X7. Any number of appends. When the storage answers, one or more
    appends in a row leave the records they built, newest first, in front
    of the previous contents, the whole cut to 50: the history read back
    has [min 50 (appended + previous)] elements, and from 50 appends on
    nothing of the previous contents is left. *)
Theorem appends_keep_the_newest_fifty (ns : list notification) (w : world)
  (items : list value) :
  reliable w → persisted w = Some items → ns ≠ [] →
  let records := json_elem <$> items_from (clock w) ns in
  fst (append_all ns w) = Ok tt ∧
  fst (getNotificationHistory (snd (append_all ns w))) =
    Ok (VArr (take 50 (reverse records ++ (json_elem <$> items)))) ∧
  length (take 50 (reverse records ++ (json_elem <$> items))) =
    min 50 (length ns + length items) ∧
  (50 ≤ length ns →
   take 50 (reverse records ++ (json_elem <$> items)) = take 50 (reverse records)).
Proof.
  intros Hrel Hp Hne records.
  destruct (append_all_written ns w items Hrel Hp) as (Hres & Hrel' & Hp').
  rewrite push_all in Hp'
    by (intros Hnil; apply (f_equal length) in Hnil;
        rewrite items_from_length in Hnil; destruct ns; done).
  split; [ exact Hres |]. split; [ exact (persisted_read _ _ (Hrel' 0) Hp') |].
  assert (Hlen : length (reverse records) = length ns)
    by (unfold records; rewrite length_reverse, length_fmap, items_from_length; done).
  split.
  - rewrite length_take, length_app, length_fmap, Hlen. lia.
  - intros Hmany. rewrite take_app_le by lia. reflexivity.
Qed.

Lemma appends_keep_the_newest_fifty_witness :
  let ns := sample <$> seq 0 3 in
  let w := quiet 0 (stocked 2) in
  fst (append_all ns w) = Ok tt ∧
  fst (getNotificationHistory (snd (append_all ns w))) =
    Ok (VArr [json_elem (notificationItem (sample 2) (JsDate.iso_string 2));
              json_elem (notificationItem (sample 1) (JsDate.iso_string 1));
              json_elem (notificationItem (sample 0) (JsDate.iso_string 0));
              VNull; VNull]).
Proof.
  intros ns w.
  destruct (appends_keep_the_newest_fifty ns w (replicate 2 VNull))
    as (H1 & H2 & _).
  - intros i. reflexivity.
  - reflexivity.
  - discriminate.
  - split; [ exact H1 | exact H2 ].
Defined.

(** X8. The history stays well formed. Starting from a storage that
    holds no history, or a history of at most 50 records, any sequence of
    calls of the service (the seven operations of the dispatcher, direct
    appends, reads, clears and payload constructions), under any
    behaviour of the host, the storage and the clock, leaves such a
    storage again; [getNotificationHistory] then returns an array of at
    most 50 elements, each a record with the properties [id], [title],
    [body], [receivedAt] and [shleduledAt] holding strings, [data]
    holding an object, and no other property. *)
Theorem history_stays_well_formed (cs : list command) (w : world) :
  well_formed w →
  well_formed (exec_all cs w) ∧
  ∃ items,
    fst (getNotificationHistory (exec_all cs w)) = Ok (VArr items) ∧
    length items ≤ 50 ∧
    Forall (fun r => is_record r = true) items.
Proof.
  intros Hw.
  assert (Hend : well_formed (exec_all cs w)).
  { unfold exec_all. revert w Hw.
    induction cs as [| c cs IH]; intros w Hw; [ exact Hw |].
    cbn [foldl]. apply IH, exec_well_formed, Hw. }
  split; [ exact Hend |].
  destruct Hend as (items & Hp & Hlen & Hall).
  rewrite get_history_result. unfold persisted in Hp.
  destruct (storage_faults (exec_all cs w) 0);
    [ exists []; repeat split; [ simpl; lia | constructor ] |].
  destruct (storage (exec_all cs w) !! historyKey) as [[| | v] |];
    try (exists []; repeat split; [ simpl; lia | constructor ]); try discriminate.
  destruct v; try discriminate. simplify_eq. eauto.
Qed.

Lemma history_stays_well_formed_witness :
  let cs := [Dispatch (OrderReady latte); Append (sample 1); ReadHistory;
             Dispatch (Scheduled "T" "B" tagged None); ClearHistory;
             Dispatch (OrderConfirmation latte)] in
  let w := failing 3 (HostError "full") (quiet 0 ∅) in
  well_formed (exec_all cs w) ∧
  ∃ items,
    fst (getNotificationHistory (exec_all cs w)) = Ok (VArr items) ∧
    length items ≤ 50 ∧
    Forall (fun r => is_record r = true) items.
Proof.
  intros cs w. apply (history_stays_well_formed cs w).
  exists []. split; [ reflexivity |]. split; [ simpl; lia | constructor ].
Defined.

(** X9. A history that is not a list is never repaired by appends. When
    what is stored under the history key is not the text of an array
    (malformed text, or JSON of another kind), no call of the service
    other than [clearNotificationHistory] changes it: every append, direct
    or through an operation of the dispatcher, fails silently and the
    stored value stays as it is, however many calls are made. Until it
    is cleared, [getNotificationHistory] returns the stored JSON value
    itself, which is not a list. A clear that the storage carries out
    removes it, after which appends are stored again. *)
Theorem corrupt_history_is_not_repaired (cs : list command) (w : world) :
  persisted w = None → ClearHistory ∉ cs →
  storage (exec_all cs w) = storage w ∧
  persisted (exec_all cs w) = None ∧
  (∀ n, storage (snd (saveNotificationToHistory n (exec_all cs w))) = storage w) ∧
  (∀ v, storage w !! historyKey = Some (JsonText v) →
        storage_faults (exec_all cs w) 0 = None →
        fst (getNotificationHistory (exec_all cs w)) = Ok v) ∧
  (storage_faults (exec_all cs w) 0 = None →
   persisted (snd (clearNotificationHistory (exec_all cs w))) = Some []).
Proof.
  intros Hp Hcs.
  assert (Hst : storage (exec_all cs w) = storage w).
  { unfold exec_all. revert w Hp.
    induction cs as [| c cs IH]; intros w Hp; [ reflexivity |].
    apply not_elem_of_cons in Hcs as [Hc Hcs]. cbn [foldl].
    assert (Hstep : storage (exec w c) = storage w)
      by (apply exec_keeps_corrupt; [ exact Hp | congruence ]).
    rewrite (IH Hcs (exec w c)); [ exact Hstep |].
    unfold persisted in *. rewrite Hstep. exact Hp. }
  assert (Hp' : persisted (exec_all cs w) = None)
    by (unfold persisted in *; rewrite Hst; exact Hp).
  split; [ exact Hst |]. split; [ exact Hp' |]. split; [| split ].
  - intros n. rewrite save_unchanged; [ exact Hst | tauto ].
  - intros v Hv H0. rewrite get_history_result, H0, Hst, Hv. reflexivity.
  - intros H0. unfold persisted.
    rewrite (proj2 (clear_result (exec_all cs w))), H0, lookup_delete_eq. reflexivity.
Qed.

Lemma corrupt_history_is_not_repaired_witness :
  let w := quiet 0 {[ historyKey := JsonText (VObj ∅) ]} in
  let cs := [Dispatch (OrderReady latte); Append (sample 1); ReadHistory] in
  storage (exec_all cs w) = {[ historyKey := JsonText (VObj ∅) ]} ∧
  persisted (exec_all cs w) = None ∧
  (∀ n, storage (snd (saveNotificationToHistory n (exec_all cs w))) =
        {[ historyKey := JsonText (VObj ∅) ]}) ∧
  fst (getNotificationHistory (exec_all cs w)) = Ok (VObj ∅) ∧
  persisted (snd (clearNotificationHistory (exec_all cs w))) = Some [].
Proof.
  intros w cs.
  destruct (corrupt_history_is_not_repaired cs w) as (H1 & H2 & H3 & H5 & H4).
  - reflexivity.
  - unfold cs. rewrite !not_elem_of_cons. repeat split; try discriminate.
    apply not_elem_of_nil.
  - split; [ exact H1 |]. split; [ exact H2 |]. split; [ exact H3 |].
    split; [ apply H5; reflexivity | apply H4; reflexivity ].
Defined.

(** X10. Only the history key. No function of the service changes what
    the storage holds under a key other than ["notification_history"];
    [getNotificationHistory] and [getServerNotificationPayload] change
    nothing in the storage at all. *)
Theorem only_the_history_key (k : string) (w : world) :
  k ≠ historyKey →
  (∀ op, storage (snd (run op w)) !! k = storage w !! k) ∧
  (∀ n, storage (snd (saveNotificationToHistory n w)) !! k = storage w !! k) ∧
  storage (snd (clearNotificationHistory w)) !! k = storage w !! k ∧
  storage (snd (getNotificationHistory w)) = storage w ∧
  (∀ d, storage (snd (getServerNotificationPayload d w)) = storage w).
Proof.
  intros Hk.
  assert (Hsave : ∀ n w', storage (snd (saveNotificationToHistory n w')) !! k =
                          storage w' !! k).
  { intros n w'. destruct (save_storage n w') as [-> | (items & _ & ->)];
      [ reflexivity | apply lookup_insert_ne; congruence ]. }
  split; [| split; [ exact (fun n => Hsave n w) | split; [| split ] ] ].
  - intros op. destruct (before_request_frame op w) as (Hst & _).
    destruct (run_cases op w)
      as [(t & b & d & s & -> & Ht & Hrun) | (t & b & d & at_ & Hs & Hn & Hrun)].
    + rewrite Hrun. reflexivity.
    + cbv zeta in Hrun. rewrite Hrun.
      destruct (deliveries w 0) as [e | id]; cbn [snd logged storage Notifications.asked].
      * rewrite Hst. reflexivity.
      * rewrite Hsave. cbn [storage Notifications.asked]. rewrite Hst. reflexivity.
  - rewrite (proj2 (clear_result w)).
    destruct (storage_faults w 0); [ reflexivity |].
    apply lookup_delete_ne. congruence.
  - apply get_storage.
  - intros d. destruct (payload_run d w) as [v ->]. reflexivity.
Qed.

Lemma only_the_history_key_witness :
  let w := quiet 0 {[ "theme" := JsonText (VStr "dark") ]} in
  storage (snd (run (OrderReady latte) w)) !! "theme" = Some (JsonText (VStr "dark")) ∧
  storage (snd (clearNotificationHistory w)) !! "theme" = Some (JsonText (VStr "dark")).
Proof.
  intros w. split.
  - apply (proj1 (only_the_history_key "theme" w ltac:(discriminate)) (OrderReady latte)).
  - apply (proj1 (proj2 (proj2 (only_the_history_key "theme" w ltac:(discriminate))))).
Defined.

(** X11. Overlapping appends lose a record. [saveNotificationToHistory]
    is its read followed by [save_after_read]. When two appends are in
    flight together on a storage that answers, both read the same list,
    both resolve, and the history is left as the later write alone made
    it: the record of the call that wrote first is not in it, whereas the
    same two appends one after the other leave both records. *)
Theorem overlapping_appends_lose_a_record (a b : notification) (w : world)
  (items : list value) :
  reliable w → persisted w = Some items →
  (∀ n w', saveNotificationToHistory n w' =
           let '(r, w1) := AsyncStorage.getItem historyKey w' in
           save_after_read n r w1) ∧
  fst (overlapped a b w) = Ok tt ∧
  persisted (snd (overlapped a b w)) =
    Some (json_elem (notificationItem b (JsDate.iso_string (clock w 1)))
          :: take 49 (json_elem <$> items)) ∧
  persisted (snd (overlapped b a w)) =
    Some (json_elem (notificationItem a (JsDate.iso_string (clock w 1)))
          :: take 49 (json_elem <$> items)) ∧
  persisted (snd ((saveNotificationToHistory a ;; saveNotificationToHistory b) w)) =
    Some (json_elem (notificationItem b (JsDate.iso_string (clock w 1)))
          :: json_elem (notificationItem a (JsDate.iso_string (clock w 0)))
          :: take 48 (json_elem <$> items)).
Proof.
  intros Hrel Hp.
  pose proof (fun x y => overlapped_written x y w items Hrel Hp) as Hover.
  split; [| split; [ apply Hover | split; [ apply Hover | split; [ apply Hover |] ] ] ].
  - intros n w'. apply save_in_two_steps.
  - unfold bind. rewrite (save_written a w items (Hrel 0) (Hrel 1) Hp).
    match goal with
    | |- persisted (snd (saveNotificationToHistory b ?w1)) = _ =>
        rewrite (save_written b w1 (push items
                   (notificationItem a (JsDate.iso_string (clock w 0)))))
    end.
    + unfold persisted. cbn [snd storage clock later]. rewrite lookup_insert_eq.
      f_equal.
      transitivity (foldl push items
                      [notificationItem a (JsDate.iso_string (clock w 0));
                       notificationItem b (JsDate.iso_string (clock w 1))]);
        [ reflexivity | rewrite push_all by done; reflexivity ].
    + apply (Hrel 2).
    + apply (Hrel 3).
    + unfold persisted. cbn [storage]. rewrite lookup_insert_eq. reflexivity.
Qed.

Lemma overlapping_appends_lose_a_record_witness :
  let w := quiet 0 ∅ in
  fst (overlapped (sample 0) (sample 1) w) = Ok tt ∧
  persisted (snd (overlapped (sample 0) (sample 1) w)) =
    Some [json_elem (notificationItem (sample 1) (JsDate.iso_string 1))] ∧
  persisted (snd ((saveNotificationToHistory (sample 0) ;;
                   saveNotificationToHistory (sample 1)) w)) =
    Some [json_elem (notificationItem (sample 1) (JsDate.iso_string 1));
          json_elem (notificationItem (sample 0) (JsDate.iso_string 0))].
Proof.
  intros w.
  destruct (overlapping_appends_lose_a_record (sample 0) (sample 1) w [])
    as (_ & H1 & H2 & _ & H3).
  - intros i. reflexivity.
  - reflexivity.
  - split; [ exact H1 |]. split; [ exact H2 | exact H3 ].
Defined.

(** X12. The server payload agrees with the local notification. For
    every order, [getServerNotificationPayload] only reads the clock (it
    asks neither the host nor the storage and resolves) and builds an
    object with the seven properties [to], [sound], [title], [body],
    [data], [priority] and [channelId]. Its title and body are those
    [sendOrderConfirmationNotification] delivers for the same order, and
    its [data] agrees with the delivered [data] on every property except
    [price] and [quantity]: the payload carries the order's numbers as
    they are, the local notification replaces a zero or NaN by 0. *)
Theorem server_payload_matches_delivery (d : pushOrderDetails) (w : world) :
  ∃ payload pdata req,
    getServerNotificationPayload d w = (Ok (VObj payload), Date.ticked w) ∧
    calls (snd (sendOrderConfirmationNotification d w)) =
      (req, deliveries w 0) :: calls w ∧
    dom payload =
      list_to_set ["to"; "sound"; "title"; "body"; "data"; "priority"; "channelId"] ∧
    payload !! "to" = Some (VStr (pushToken d)) ∧
    payload !! "title" = Some (VStr (content_title (request_content req))) ∧
    payload !! "body" = Some (VStr (content_body (request_content req))) ∧
    payload !! "data" = Some (VObj pdata) ∧
    (∀ k, k ≠ "price" → k ≠ "quantity" →
          pdata !! k = content_data (request_content req) !! k) ∧
    pdata !! "price" = Some (VNum (totalPrice d)) ∧
    pdata !! "quantity" = Some (VNum (quantity d)) ∧
    content_data (request_content req) !! "price" =
      Some (or_else (VNum (totalPrice d)) (VNum 0)) ∧
    content_data (request_content req) !! "quantity" =
      Some (or_else (VNum (quantity d)) (VNum 0)).
Proof.
  unfold getServerNotificationPayload, sendOrderConfirmationNotification.
  unfold Date.current, Date.toISOString; unfold Date.now; unfold bind, ret.
  cbv beta iota. rewrite send_local_run. cbv zeta.
  fold (orderConfirmationBody d).
  set (ts := JsDate.iso_string (clock w 0)).
  match goal with
  | |- context [local_request ?t ?b (Some ?o)] =>
      set (title := t); set (data := o);
      destruct (local_data_lookup title (orderConfirmationBody d) (Some data))
        as (Ht & Hb & Hp & Hq & Hother)
  end.
  eexists _, data, (local_request title (orderConfirmationBody d) (Some data)).
  split; [ reflexivity |]. split.
  { change (deliveries (Date.ticked w)) with (deliveries w).
    destruct (deliveries w 0) eqn:Hd; cbn [snd logged calls];
      rewrite ?(proj2 (save_frame _ _));
      cbn [calls deliveries Notifications.asked Date.ticked]; rewrite Hd;
      reflexivity. }
  split.
  { unfold literal. cbn [foldl fst snd]. rewrite !dom_insert_L, dom_empty_L.
    set_solver. }
  cbn [local_request request_content alert content_title content_body content_data].
  split; [ reflexivity |]. split; [ reflexivity |]. split; [ reflexivity |].
  split; [ reflexivity |]. split.
  { intros k Hkp Hkq.
    destruct (decide (k = "title")) as [-> |]; [ rewrite Ht; reflexivity |].
    destruct (decide (k = "body")) as [-> |]; [ rewrite Hb; reflexivity |].
    symmetry. apply Hother. rewrite !elem_of_cons, elem_of_nil. tauto. }
  split; [ reflexivity |]. split; [ reflexivity |].
  split; [ rewrite Hp | rewrite Hq ]; reflexivity.
Qed.

(** X13. The screen's fetch and refresh cannot fail. In every world
    [fetchNotification] resolves, displays exactly what
    [getNotificationHistory] returns and leaves the world that call
    leaves: its own error line is never written. It displays the stored
    list when the read is answered, and the empty list when the read is
    rejected or what is stored is not JSON. [onRefresh] does the same and
    always ends with the refresh indicator switched off. *)
Theorem fetch_and_refresh_resolve (s : screen) (w : world) :
  ∃ v,
    fst (getNotificationHistory w) = Ok v ∧
    fetchNotification s w =
      (Ok {| notifications := v; refreshing := refreshing s |},
       snd (getNotificationHistory w)) ∧
    onRefresh s w =
      (Ok {| notifications := v; refreshing := false |},
       snd (getNotificationHistory w)) ∧
    (∀ items, storage_faults w 0 = None → persisted w = Some items → v = VArr items) ∧
    (is_Some (storage_faults w 0) ∨ storage w !! historyKey = Some Malformed →
     v = VArr []).
Proof.
  destruct (fetch_run s w) as (v & Hv & Hfetch). exists v.
  split; [ exact Hv |]. split; [ exact Hfetch |]. split; [| split ].
  - destruct (fetch_run (setRefreshing true s) w) as (v' & Hv' & Hfetch').
    rewrite Hv in Hv'. simplify_eq.
    unfold onRefresh, bind, ret. rewrite Hfetch'. reflexivity.
  - intros items H0 Hp. rewrite (persisted_read w items H0 Hp) in Hv. congruence.
  - rewrite get_history_result in Hv. intros [[e He] | Hbad].
    + rewrite He in Hv. congruence.
    + rewrite Hbad in Hv. destruct (storage_faults w 0); congruence.
Qed.

Lemma fetch_and_refresh_resolve_witness :
  let s := {| notifications := VArr [VNull]; refreshing := false |} in
  fetchNotification s (quiet 0 (stocked 2)) =
    (Ok {| notifications := VArr [VNull; VNull]; refreshing := false |},
     snd (getNotificationHistory (quiet 0 (stocked 2)))) ∧
  fst (onRefresh s (failing 0 (HostError "denied") (quiet 0 (stocked 2)))) =
    Ok {| notifications := VArr []; refreshing := false |}.
Proof.
  intros s. split.
  - destruct (fetch_and_refresh_resolve s (quiet 0 (stocked 2)))
      as (v & _ & Hfetch & _ & Hread & _).
    rewrite Hfetch, (Hread [VNull; VNull]); reflexivity.
  - destruct (fetch_and_refresh_resolve s
                (failing 0 (HostError "denied") (quiet 0 (stocked 2))))
      as (v & _ & _ & Hrefresh & _ & Hfail).
    rewrite Hrefresh, Hfail; [ reflexivity |]. left. eexists. reflexivity.
Defined.

(** X14. Clear All. [clearAllDeliveredNotifications] stands for the
    imported call that clears the host's delivered notifications.
    (1) When that call rejects, [handleClearAll] resolves all the same,
    logs the error, leaves the displayed list as it was and does not call
    the history store: the world is the one the rejected call left, with
    one more line on the console.
    (2) When that call resolves, [handleClearAll] calls
    [clearNotificationHistory] and displays the empty list. If the
    storage carries out the removal, the history is gone and a later
    fetch displays the empty list. If the storage rejects the removal,
    the screen shows the empty list all the same while the history is
    still stored: the next fetch that the storage answers displays the
    old records again. *)
Theorem clear_all_outcomes (clearAllDeliveredNotifications : M unit)
  (s : screen) (w w1 : world) :
  let r := handleClearAll clearAllDeliveredNotifications s w in
  (∀ e, clearAllDeliveredNotifications w = (Throw e, w1) →
     r = (Ok s, logged (Error "Error clearing notifications:" e) w1)) ∧
  (clearAllDeliveredNotifications w = (Ok tt, w1) →
     r = (Ok {| notifications := VArr []; refreshing := refreshing s |},
          snd (clearNotificationHistory w1)) ∧
     (storage_faults w1 0 = None →
      storage (snd r) = delete historyKey (storage w1) ∧
      ∀ s', fst (fetchNotification s' (snd r)) =
            Ok {| notifications := VArr []; refreshing := refreshing s' |}) ∧
     (∀ items,
        is_Some (storage_faults w1 0) → storage_faults w1 1 = None →
        persisted w1 = Some items →
        storage (snd r) = storage w1 ∧
        ∀ s', fst (fetchNotification s' (snd r)) =
              Ok {| notifications := VArr items; refreshing := refreshing s' |})).
Proof.
  cbv zeta. split.
  { intros e Hhost. unfold handleClearAll, try_catch, bind. rewrite Hhost.
    reflexivity. }
  intros Hhost.
  assert (Hrun : handleClearAll clearAllDeliveredNotifications s w =
                 (Ok (setNotifications (VArr []) s), snd (clearNotificationHistory w1))).
  { unfold handleClearAll, try_catch, bind, ret. rewrite Hhost, clear_run. reflexivity. }
  rewrite Hrun. cbn [snd]. split; [ reflexivity |].
  pose proof (proj2 (clear_result w1)) as Hst.
  assert (Hfaults : storage_faults (snd (clearNotificationHistory w1)) =
                    later (storage_faults w1)).
  { run_service. repeat (case_match; simplify_eq/=); reflexivity. }
  split.
  - intros H0. rewrite H0 in Hst. split; [ exact Hst |]. intros s'.
    destruct (fetch_run s' (snd (clearNotificationHistory w1))) as (v & Hv & ->).
    rewrite get_history_result, Hst, lookup_delete_eq in Hv.
    assert (v = VArr []) as ->
      by (destruct (storage_faults (snd (clearNotificationHistory w1)) 0); congruence).
    reflexivity.
  - intros items [e He] H1 Hp. rewrite He in Hst. split; [ exact Hst |]. intros s'.
    destruct (fetch_run s' (snd (clearNotificationHistory w1))) as (v & Hv & ->).
    rewrite (persisted_read _ items) in Hv.
    + cbn [fst]. unfold setNotifications. simplify_eq. reflexivity.
    + rewrite Hfaults. exact H1.
    + unfold persisted in *. rewrite Hst. exact Hp.
Qed.

Lemma clear_all_outcomes_witness :
  let s := {| notifications := VArr [VNull; VNull]; refreshing := false |} in
  let busy := HostError "busy" in
  handleClearAll (throw busy) s (quiet 0 (stocked 2)) =
    (Ok s, logged (Error "Error clearing notifications:" busy) (quiet 0 (stocked 2))) ∧
  (fst (handleClearAll (ret tt) s (quiet 0 (stocked 2))) =
     Ok {| notifications := VArr []; refreshing := false |} ∧
   storage (snd (handleClearAll (ret tt) s (quiet 0 (stocked 2)))) =
     delete historyKey (stocked 2)) ∧
  (let w := failing 0 (HostError "denied") (quiet 0 (stocked 2)) in
   fst (handleClearAll (ret tt) s w) =
     Ok {| notifications := VArr []; refreshing := false |} ∧
   storage (snd (handleClearAll (ret tt) s w)) = stocked 2 ∧
   fst (fetchNotification s (snd (handleClearAll (ret tt) s w))) =
     Ok {| notifications := VArr [VNull; VNull]; refreshing := false |}).
Proof.
  intros s busy. split; [| split ].
  - apply (proj1 (clear_all_outcomes (throw busy) s (quiet 0 (stocked 2))
                    (quiet 0 (stocked 2))) busy).
    reflexivity.
  - destruct (proj2 (clear_all_outcomes (ret tt) s (quiet 0 (stocked 2))
                       (quiet 0 (stocked 2))) eq_refl) as (Hrun & Hclear & _).
    split; [ rewrite Hrun; reflexivity |].
    apply Hclear. reflexivity.
  - intros w.
    destruct (proj2 (clear_all_outcomes (ret tt) s w w) eq_refl)
      as (Hrun & _ & Hstale).
    split; [ rewrite Hrun; reflexivity |].
    destruct (Hstale [VNull; VNull]) as [Hst Hfetch].
    + eexists. reflexivity.
    + reflexivity.
    + reflexivity.
    + split; [ exact Hst | apply Hfetch ].
Defined.

(** * Checks of the models of the built-ins

    The conversions of numbers and dates to text, run on values whose
    JavaScript result is known. *)

Example number_to_string :
  Number.toString <$>
    [1; 4.5; 0.1; 0.1 + 0.2; 100; 1e21; 1e-7; 0.000001; 123456789; -2.5; 5e-324;
     1e23; 9007199254740993; nan; infinity; -0]%float =
  ["1"; "4.5"; "0.1"; "0.30000000000000004"; "100"; "1e+21"; "1e-7"; "0.000001";
   "123456789"; "-2.5"; "5e-324"; "1e+23"; "9007199254740992"; "NaN"; "Infinity"; "0"].
Proof. vm_compute. reflexivity. Qed.

Example number_to_fixed :
  (fun x => Number.toFixed x 2) <$>
    [4.5; 12.5; 1.005; 2.675; 0.125; 10.235; 0; -0.001; 1234.5678; 1e21; nan]%float =
  ["4.50"; "12.50"; "1.00"; "2.67"; "0.13"; "10.23"; "0.00"; "-0.00"; "1234.57";
   "1e+21"; "NaN"].
Proof. vm_compute. reflexivity. Qed.

(** From [10^21] on, and for NaN and the infinities, [toFixed] does not
    write two decimals: such numbers are not amounts. *)
Example not_amounts :
  is_amount <$> [1e21; nan; infinity; 999999999999999900000; 4.5; 0]%float =
  [false; false; false; true; true; true].
Proof. vm_compute. reflexivity. Qed.

Example date_to_iso_string :
  JsDate.iso_string <$>
    [0; 1700000000000; 951782400000; -1; 253402300799999; 253402300800000;
     -62167219200001; 8640000000000000; -8640000000000000]%Z =
  ["1970-01-01T00:00:00.000Z"; "2023-11-14T22:13:20.000Z"; "2000-02-29T00:00:00.000Z";
   "1969-12-31T23:59:59.999Z"; "9999-12-31T23:59:59.999Z"; "+010000-01-01T00:00:00.000Z";
   "-000001-12-31T23:59:59.999Z"; "+275760-09-13T00:00:00.000Z";
   "-271821-04-20T00:00:00.000Z"].
Proof. vm_compute. reflexivity. Qed.

Example invalid_dates :
  JsDate.time_clip <$> [8.64e15; 8640000000000002; -1.5; nan; infinity]%float =
  [Some 8640000000000000%Z; None; Some (-1)%Z; None; None].
Proof. vm_compute. reflexivity. Qed.

Example not_timestamps :
  parse_iso <$>
    ["2023-11-14T22:13:20.000Z"; "2023-11-14T22:13:20.000"; "2023-13-14T22:13:20.000Z";
     "2023-11-14T22:13:20.000ZZ"; "-000000-01-01T00:00:00.000Z"; ""] =
  [Some 1700000000000%Z; None; None; None; None; None].
Proof. vm_compute. reflexivity. Qed.

Example json_round_trip :
  toJSON (VObj (literal ∅
    [ ("a", VUndefined); ("b", VNum nan); ("c", VArr [VUndefined; VNum (-0)]);
      ("d", VStr "x") ])) =
  Some (VObj (literal ∅
    [ ("b", VNull); ("c", VArr [VNull; VNum 0]); ("d", VStr "x") ])).
Proof. vm_compute. reflexivity. Qed.

Example order_ready_bodies :
  orderReadyBody latte = "Your Latte  is ready for pickup!" ∧
  orderReadyBody {| coffeeName := "Latte"; quantity := 3; totalPrice := 13.5;
                    orderId := "o2" |} = "Your Latte (3x) is ready for pickup!".
Proof. split; vm_compute; reflexivity. Qed.

(** A schedule whose time is not a date fails before the host is asked. *)
Example schedule_out_of_range :
  let r := scheduleNotification "T" "B" None (Some infinity) (quiet 0 ∅) in
  fst r = Throw RangeError ∧ calls (snd r) = [] ∧ storage (snd r) = ∅.
Proof. vm_compute. repeat split; reflexivity. Qed.
